(** * Reputation aggregation engine of the anti-cheat database server

    A shallow embedding of [src/server/main.py]: the per-player
    reputation record, the fold performed by [submit_report], the
    confidence classification, the player lookup, the search and the
    administrative ban, followed by the properties proved about them.

    Conventions of the embedding.
    - A Python [int] is a [Z]. A Python [float] is the rational number it
      denotes, a [Q]; every operation on floats rounds its exact result to
      binary64 ([binary64]: to nearest, ties to even, subnormals
      included). Infinities and NaN are outside the model: the scores are
      validated to lie in 0..100.
    - A [datetime] is a [Z], the reading of the clock in microseconds, and
      a report carries beside it the UTC offset of a timestamp that has
      one; the ISO rendering stored in the file is identified with them.
    - [data["reputation"]] is an insertion-ordered dictionary, modelled as
      an association list with unique keys ([odict]); [rep["formats"]] is
      only looked up and updated, and is a [gmap].
    - The reports file is modelled by the document [load_reports] reads
      from it, a [Data]; a file that cannot be parsed is read as the empty
      document and is modelled by it. Reading and writing the file can
      fail, as decided by the environment of each request. *)

From Stdlib Require Import QArith Qround Qabs Lqa.
From stdpp Require Import gmap strings list sorting fin_maps pretty.

Open Scope Z_scope.

(** ** Strings *)

(** [str.lower] on ASCII text: A..Z are mapped to a..z, every other
    character is kept. Usernames with cased letters outside ASCII are
    outside the model; the properties below use of [lower] only that
    folding twice is folding once, which [str.lower] also satisfies. *)
Definition lower_char (c : Ascii.ascii) : Ascii.ascii :=
  let n := Ascii.N_of_ascii c in
  if ((65 <=? n) && (n <=? 90))%N then Ascii.ascii_of_N (n + 32) else c.

Fixpoint lower (s : string) : string :=
  match s with
  | EmptyString => EmptyString
  | String c s' => String (lower_char c) (lower s')
  end.

(** ** Insertion-ordered dictionaries with string keys *)

Section odict.
Context {V : Type}.

Definition odict := list (string * V).

(** [d.get(k)] *)
Fixpoint odict_get (k : string) (d : odict) : option V :=
  match d with
  | [] => None
  | (k', v) :: d' => if String.eqb k' k then Some v else odict_get k d'
  end.

(** [d[k] = v]: an existing key keeps its position, a new key goes last. *)
Fixpoint odict_set (k : string) (v : V) (d : odict) : odict :=
  match d with
  | [] => [(k, v)]
  | (k', v') :: d' =>
      if String.eqb k' k then (k', v) :: d' else (k', v') :: odict_set k v d'
  end.

(** [d.items()] is the list itself; [d.values()]: *)
Definition odict_values (d : odict) : list V := d.*2.

End odict.

Arguments odict : clear implicits.

(** ** Confidence levels *)

Inductive Level := low | medium | high | confirmed.

Definition Level_eqb (a b : Level) : bool :=
  match a, b with
  | low, low | medium, medium | high, high | confirmed, confirmed => true
  | _, _ => false
  end.

(** The tiers in increasing order. *)
Definition Level_rank (l : Level) : Z :=
  match l with low => 0 | medium => 1 | high => 2 | confirmed => 3 end.

Definition Level_le (a b : Level) : Prop := Level_rank a <= Level_rank b.

(** [calculate_confidence_level(report_count, avg_risk)] *)
Definition calculate_confidence_level (report_count : Z) (avg_risk : Q) : Level :=
  if (10 <=? report_count) && Qle_bool 80 avg_risk then confirmed
  else if (5 <=? report_count) && Qle_bool 70 avg_risk then high
  else if (3 <=? report_count) && Qle_bool 60 avg_risk then medium
  else low.

(** ** Numbers *)

(** Rounding to the nearest integer, ties to even. *)
Definition round_half_even (x : Q) : Z :=
  let f := Qfloor x in
  let r := (x - inject_Z f)%Q in
  match (r ?= 1 # 2)%Q with
  | Lt => f
  | Gt => f + 1
  | Eq => if Z.even f then f else f + 1
  end.

(** The exponent [e] with [2^e <= x < 2^(e+1)], for a positive [x]. *)
Definition floor_log2 (x : Q) : Z :=
  let e0 := Z.log2 (Qnum x) - Z.log2 (Zpos (Qden x)) in
  if Qle_bool (2 ^ e0) x then e0 else e0 - 1.

(** The binary64 number nearest to [x], ties to even: 53 significant bits,
    and multiples of [2^-1074] below [2^-1022]. It is the rounding every
    float operation of the source applies to its exact result. *)
Definition binary64 (x : Q) : Q :=
  let x := Qred x in
  match Qnum x with
  | 0 => 0%Q
  | _ =>
      let a := Qabs x in
      let q := Z.max (floor_log2 a - 52) (-1074) in
      let m := round_half_even (a / 2 ^ q) in
      Qred ((if 0 <? Qnum x then 1 else -1) * inject_Z m * 2 ^ q)
  end.

Arguments binary64 : simpl never.

(** [a + b] and [a / b] on floats, and [float(n)] of an [int]. *)
Definition float_add (a b : Q) : Q := binary64 (a + b).

Definition float_div (a b : Q) : Q := binary64 (a / b).

Definition float_of_int (n : Z) : Q := binary64 (inject_Z n).

(** Python's [sum(xs)] of floats: a left fold of float additions starting
    from [0] (as in CPython up to 3.11; later versions carry a
    compensation term along the fold). *)
Definition sum (xs : list Q) : Q := foldl float_add 0%Q xs.

(** [len(xs)] as a number. *)
Definition len {A} (xs : list A) : Z := Z.of_nat (length xs).

(** The arithmetic mean as the specification words it: the total of the
    elements divided by their number, in exact arithmetic. *)
Definition mean (xs : list Q) : Q :=
  (foldr Qplus 0%Q xs / inject_Z (Z.of_nat (length xs)))%Q.

(** [round(x, 2)]: the decimal rounding of the exact value of [x] to two
    places, ties to even, then the binary64 number nearest to it. *)
Definition round2 (x : Q) : Q :=
  binary64 (inject_Z (round_half_even (x * 100)) / 100).

(** ** Data model *)

Definition datetime := Z.

(** [class PlayerReport]. The field constraints of the class (lengths,
    ranges, the format pattern) are enforced by the request layer before
    the handler runs; [factors] is carried and never interpreted. The
    source field [timestamp] is held in two parts: the reading, and in
    [timestamp_offset] the UTC offset (in minutes) when the caller sent an
    offset-aware timestamp, [None] for a naive one. *)
Module PlayerReport.
Record t := mk {
  username : string;
  risk_score : Q;
  game_format : string;
  timestamp : option datetime;
  timestamp_offset : option Z;
  reporter_hash : option string;
  factors : option (list (string * string));
  notes : option string
}.

(** [report.model_dump()] with ['timestamp'] overwritten by the rendering
    of [report.timestamp]; a timestamp taken from the clock is naive. *)
Definition with_timestamp (r : t) (ts : datetime) : t :=
  mk (username r) (risk_score r) (game_format r) (Some ts)
     (match timestamp r with Some _ => timestamp_offset r | None => None end)
     (reporter_hash r) (factors r) (notes r).
End PlayerReport.

(** One entry of [data["reputation"]]. The keys ["average_risk_score"] and
    ["confidence_level"] are missing from the dictionary literal that
    creates an entry and are assigned a few lines later, before the entry
    is read or saved: the record carries them from the start. *)
Module Rep.
Record t := mk {
  username : string;
  total_reports : Z;
  risk_scores : list Q;
  formats : gmap string Z;
  first_reported : datetime;
  last_reported : datetime;
  is_banned : bool;
  average_risk_score : Q;
  confidence_level : Level
}.

Definition set_is_banned (b : bool) (r : t) : t :=
  mk (username r) (total_reports r) (risk_scores r) (formats r)
     (first_reported r) (last_reported r) b
     (average_risk_score r) (confidence_level r).

Definition set_confidence_level (l : Level) (r : t) : t :=
  mk (username r) (total_reports r) (risk_scores r) (formats r)
     (first_reported r) (last_reported r) (is_banned r)
     (average_risk_score r) l.
End Rep.

(** The content of the reports file. *)
Record Data := mkData {
  reports : list PlayerReport.t;
  reputation : odict Rep.t
}.

Definition empty_data : Data := mkData [] [].

(** ** Environment of a request and storage *)

(** What a request finds around it: the clock, whether reading and
    writing the reports file fail during it, and whether a failing write
    fails after [write_text] has opened the file, which empties it. *)
Record Env := mkEnv {
  now : datetime;
  read_fails : bool;
  write_fails : bool;
  write_truncates : bool
}.

(** [load_reports()]: a failed read is reported on the console and the
    empty document is returned. *)
Definition load_reports (env : Env) (file : Data) : Data :=
  if read_fails env then empty_data else file.

(** The file after a write that failed once the file was open: [write_text]
    opens with mode ['w'], so the file is left empty or cut short and no
    longer parses; it is read as the empty document. *)
Definition truncated_file : Data := empty_data.

(** [save_reports(data)]: a failed write is reported on the console and
    swallowed. The file keeps its content when the failure comes before
    the file is opened (the document cannot be serialised, the file cannot
    be opened) and is left truncated when it comes after. The function
    returns nothing in all cases. *)
Definition save_reports (env : Env) (data : Data) (file : Data) : Data :=
  if write_fails env then
    if write_truncates env then truncated_file else file
  else data.

(** ** Exceptions *)

Inductive Exception := HTTPException (status_code : Z) (detail : string).

(** [str(e)] of an HTTP exception: the status code, a colon, the detail. *)
Definition str (e : Exception) : string :=
  match e with
  | HTTPException status_code detail => pretty status_code +:+ ": " +:+ detail
  end.

(** The outcome of a handler: an exception raised to the request layer
    ([inl]) or the returned body ([inr]). *)
Definition Result (A : Type) : Type := Exception + A.

(** [try: body / except Exception as e: raise handler(e)], the file being
    left as the body left it. *)
Definition except_Exception {A} (handler : Exception -> Exception)
    (body : Data * Result A) : Data * Result A :=
  match body with
  | (file, inl e) => (file, inl (handler e))
  | (file, inr a) => (file, inr a)
  end.

(** ** Submitting a report *)

Module SubmitResponse.
Record t := mk {
  success : bool;
  message : string;
  username : string;
  total_reports : Z;
  confidence_level : Level
}.
End SubmitResponse.

(** The entry created for a username seen for the first time. *)
Definition new_rep (report : PlayerReport.t) (ts : datetime) : Rep.t :=
  Rep.mk (PlayerReport.username report) 0 [] ∅ ts ts false 0%Q low.

(** The updates applied to [rep = data["reputation"][username]], in the
    order of the source. *)
Definition fold_report (rep : Rep.t) (report : PlayerReport.t) (ts : datetime)
    : Rep.t :=
  let total_reports := Rep.total_reports rep + 1 in
  let risk_scores := Rep.risk_scores rep ++ [PlayerReport.risk_score report] in
  let last_reported := ts in
  let format_key := PlayerReport.game_format report in
  let formats :=
    <[format_key := default 0 (Rep.formats rep !! format_key) + 1]>
      (Rep.formats rep) in
  let average_risk_score :=
    float_div (sum risk_scores) (float_of_int (len risk_scores)) in
  let confidence_level :=
    calculate_confidence_level total_reports average_risk_score in
  Rep.mk (Rep.username rep) total_reports risk_scores formats
         (Rep.first_reported rep) last_reported (Rep.is_banned rep)
         average_risk_score confidence_level.

(** The timestamp of the report: the caller's, or the clock's. *)
Definition report_time (env : Env) (report : PlayerReport.t) : datetime :=
  match PlayerReport.timestamp report with
  | Some t => t
  | None => now env
  end.

(** The document built by [submit_report] from the loaded one, and the
    entry [rep] it updated. A new username is added after the existing
    ones; a known one keeps its place. *)
Definition submit_data (env : Env) (report : PlayerReport.t) (data : Data)
    : Data * Rep.t :=
  let ts := report_time env report in
  let report_dict := PlayerReport.with_timestamp report ts in
  let username := lower (PlayerReport.username report) in
  let rep0 :=
    match odict_get username (reputation data) with
    | Some rep => rep
    | None => new_rep report ts
    end in
  let rep := fold_report rep0 report ts in
  (mkData (reports data ++ [report_dict])
          (odict_set username rep (reputation data)),
   rep).

(** [POST /api/reports/submit]: the new content of the file and the
    outcome. Nothing in the body raises ([len(rep["risk_scores"])] is at
    least one when it divides), so the handler's [except] never fires. *)
Definition submit_report (env : Env) (report : PlayerReport.t) (file : Data)
    : Data * Result SubmitResponse.t :=
  except_Exception
    (fun e => HTTPException 500 ("Failed to submit report: " +:+ str e))
    (let data := load_reports env file in
     let '(data', rep) := submit_data env report data in
     (save_reports env data' file,
      inr (SubmitResponse.mk true "Report submitted successfully"
             (PlayerReport.username report)
             (Rep.total_reports rep) (Rep.confidence_level rep)))).

(** ** Looking a player up *)

Module PlayerView.
Record t := mk {
  username : string;
  total_reports : Z;
  average_risk_score : Q;
  confidence_level : Level;
  first_reported : datetime;
  last_reported : datetime;
  report_count_by_format : gmap string Z;
  is_banned : bool
}.
End PlayerView.

(** The two bodies [get_player_reputation] returns: ["found": False] with
    the queried name and a message, or ["found": True] with the view. *)
Inductive PlayerLookup :=
  | NotFound (username message : string)
  | Found (view : PlayerView.t).

(** [GET /api/reports/player/{username}]. The body reads the file and
    raises nothing. *)
Definition get_player_reputation (env : Env) (username : string) (file : Data)
    : Result PlayerLookup :=
  let data := load_reports env file in
  let username_lower := lower username in
  match odict_get username_lower (reputation data) with
  | None => inr (NotFound username "No reports found for this player")
  | Some rep =>
      inr (Found (PlayerView.mk
        (Rep.username rep) (Rep.total_reports rep)
        (round2 (Rep.average_risk_score rep)) (Rep.confidence_level rep)
        (Rep.first_reported rep) (Rep.last_reported rep)
        (Rep.formats rep) (Rep.is_banned rep)))
  end.

(** ** Searching *)

Module PlayerSummary.
Record t := mk {
  username : string;
  total_reports : Z;
  average_risk_score : Q;
  confidence_level : Level;
  last_reported : datetime;
  is_banned : bool
}.
End PlayerSummary.

Module SearchResponse.
Record t := mk {
  total_found : Z;
  players : list PlayerSummary.t
}.
End SearchResponse.

(** The dictionary appended to [results] for an entry that passes. *)
Definition summary (rep : Rep.t) : PlayerSummary.t :=
  PlayerSummary.mk
    (Rep.username rep) (Rep.total_reports rep)
    (round2 (Rep.average_risk_score rep)) (Rep.confidence_level rep)
    (Rep.last_reported rep) (Rep.is_banned rep).

(** [a < b] on scores. *)
Definition Qlt_bool (a b : Q) : bool := negb (Qle_bool b a).

(** The loop over [data["reputation"].items()]: three tests that skip the
    entry, then the append. *)
Fixpoint search_loop (min_reports : Z) (min_risk_score : Q)
    (confidence : option Level) (items : odict Rep.t) : list PlayerSummary.t :=
  match items with
  | [] => []
  | (_, rep) :: items' =>
      let results := search_loop min_reports min_risk_score confidence items' in
      if Rep.total_reports rep <? min_reports then results
      else if Qlt_bool (Rep.average_risk_score rep) min_risk_score then results
      else if match confidence with
              | Some c => negb (Level_eqb (Rep.confidence_level rep) c)
              | None => false
              end then results
      else summary rep :: results
  end.

(** [results.sort(key=lambda x: x["total_reports"], reverse=True)]: a
    stable sort, larger keys first; entries of equal key keep their order. *)
Fixpoint insert_desc (x : PlayerSummary.t) (l : list PlayerSummary.t)
    : list PlayerSummary.t :=
  match l with
  | [] => [x]
  | y :: l' =>
      if PlayerSummary.total_reports y <=? PlayerSummary.total_reports x
      then x :: y :: l'
      else y :: insert_desc x l'
  end.

Definition sort_desc (l : list PlayerSummary.t) : list PlayerSummary.t :=
  foldr insert_desc [] l.

(** The slice [xs[:n]]: the first [n] elements, or all but the last [-n]
    when [n] is negative. *)
Definition slice_to {A} (xs : list A) (n : Z) : list A :=
  if n <? 0 then take (Z.to_nat (len xs + n)) xs else take (Z.to_nat n) xs.

(** [GET /api/reports/search]. The request layer checks [min_reports >= 1],
    [0 <= min_risk_score <= 100], the pattern of [confidence] and
    [1 <= limit <= 1000] before the handler runs. *)
Definition search_suspicious_players (env : Env) (min_reports : Z)
    (min_risk_score : Q) (confidence : option Level) (limit : Z) (file : Data)
    : Result SearchResponse.t :=
  let data := load_reports env file in
  let results :=
    sort_desc (search_loop min_reports min_risk_score confidence
                           (reputation data)) in
  inr (SearchResponse.mk (len results) (slice_to results limit)).

(** ** Marking a player as banned *)

Module BanResponse.
Record t := mk {
  success : bool;
  message : string;
  username : string;
  is_banned : bool
}.
End BanResponse.

(** [POST /api/admin/mark-banned/{username}]. The 404 raised for an unknown
    player is raised inside the [try], whose [except Exception] catches it
    and raises a 500 carrying its text. *)
Definition mark_player_banned (env : Env) (username : string) (banned : bool)
    (file : Data) : Data * Result BanResponse.t :=
  except_Exception
    (fun e => HTTPException 500 (str e))
    (let data := load_reports env file in
     let username_lower := lower username in
     match odict_get username_lower (reputation data) with
     | None => (file, inl (HTTPException 404 "Player not found"))
     | Some rep =>
         let rep1 := Rep.set_is_banned banned rep in
         let rep2 :=
           Rep.set_confidence_level
             (if banned then confirmed else Rep.confidence_level rep1) rep1 in
         let data' :=
           mkData (reports data)
                  (odict_set username_lower rep2 (reputation data)) in
         (save_reports env data' file,
          inr (BanResponse.mk true
                 ("Player " +:+ username +:+ " marked as " +:+
                  (if banned then "banned" else "not banned"))
                 username banned))
     end).

(** ** Requests and reachable files *)

(** The file as the server creates it when it does not exist. *)
Definition initial_file : Data := empty_data.

(** The requests that write the file. *)
Inductive Request :=
  | Submit (report : PlayerReport.t)
  | MarkBanned (username : string) (banned : bool).

Definition handle (env : Env) (rq : Request) (file : Data) : Data :=
  match rq with
  | Submit report => (submit_report env report file).1
  | MarkBanned username banned => (mark_player_banned env username banned file).1
  end.

(** The files the server can produce from the initial one, whatever the
    requests and their environments. *)
Inductive reachable : Data -> Prop :=
  | reachable_init : reachable initial_file
  | reachable_step env rq file :
      reachable file -> reachable (handle env rq file).

(** A run of requests, each with its environment, from a given file. *)
Definition run (steps : list (Env * Request)) (file : Data) : Data :=
  foldl (fun f '(env, rq) => handle env rq f) file steps.

(** A run of submissions: the file is threaded through them and the
    outcomes are collected in order. *)
Fixpoint submit_all (subs : list (Env * PlayerReport.t)) (file : Data)
    : Data * list (Result SubmitResponse.t) :=
  match subs with
  | [] => (file, [])
  | (env, report) :: subs' =>
      let o := submit_report env report file in
      let rest := submit_all subs' o.1 in
      (rest.1, o.2 :: rest.2)
  end.

(** The confidence level a submission answers with, if it answers. *)
Definition response_level (r : Result SubmitResponse.t) : option Level :=
  match r with
  | inr resp => Some (SubmitResponse.confidence_level resp)
  | inl _ => None
  end.

(** An environment in which the file is read and written. *)
Definition storage_works (env : Env) : Prop :=
  read_fails env = false /\ write_fails env = false.

(** ** Notions used by the statements *)

(** The stored reports whose username folds to the key [k], in the order
    of their submission. *)
Definition reports_of (k : string) (file : Data) : list PlayerReport.t :=
  filter (fun r => lower (PlayerReport.username r) = k) (reports file).

(** The total of the counts held by a format dictionary. *)
Definition formats_total (formats : gmap string Z) : Z :=
  map_fold (fun _ n acc => n + acc) 0 formats.

(** The smallest and the largest of a list of times. *)
Definition earliest (ts : list datetime) : option datetime :=
  match ts with
  | [] => None
  | t :: ts' => Some (foldr Z.min t ts')
  end.

Definition latest (ts : list datetime) : option datetime :=
  match ts with
  | [] => None
  | t :: ts' => Some (foldr Z.max t ts')
  end.

(** The criteria of a search, stated positively. *)
Definition matches_criteria (min_reports : Z) (min_risk_score : Q)
    (confidence : option Level) (rep : Rep.t) : Prop :=
  min_reports <= Rep.total_reports rep /\
  (min_risk_score <= Rep.average_risk_score rep)%Q /\
  (confidence = None \/ confidence = Some (Rep.confidence_level rep)).

(** Larger report counts first. *)
Definition more_reports (a b : PlayerSummary.t) : Prop :=
  PlayerSummary.total_reports b <= PlayerSummary.total_reports a.

(** Equality of levels and the criteria of a search are decidable. *)
#[global] Instance Level_eq_dec : EqDecision Level.
Proof. solve_decision. Defined.

#[global] Instance Qle_decision (x y : Q) : Decision (x <= y)%Q :=
  match Qlt_le_dec y x with
  | left H => right (Qlt_not_le _ _ H)
  | right H => left H
  end.

#[global] Instance matches_criteria_dec min_reports min_risk_score confidence rep :
  Decision (matches_criteria min_reports min_risk_score confidence rep).
Proof. unfold matches_criteria. apply _. Defined.

(** What ties an entry of the reputation dictionary to the stored reports
    of its key. *)
Definition entry_consistent (k : string) (file : Data) (rep : Rep.t) : Prop :=
  let rs := reports_of k file in
  (exists ts,
      PlayerReport.timestamp <$> rs = Some <$> ts /\
      head ts = Some (Rep.first_reported rep) /\
      last ts = Some (Rep.last_reported rep)) /\
  PlayerReport.username <$> head rs = Some (Rep.username rep) /\
  Rep.risk_scores rep = PlayerReport.risk_score <$> rs /\
  Rep.total_reports rep = len (Rep.risk_scores rep) /\
  formats_total (Rep.formats rep) = Rep.total_reports rep /\
  Rep.average_risk_score rep =
    float_div (sum (Rep.risk_scores rep))
              (float_of_int (len (Rep.risk_scores rep))).

Definition file_consistent (file : Data) : Prop :=
  forall k,
    match odict_get k (reputation file) with
    | Some rep => entry_consistent k file rep
    | None => reports_of k file = []
    end.

(** No addition of the fold that sums [xs] from [a] rounds: every partial
    sum is a binary64 number. *)
Fixpoint sums_exactly (a : Q) (xs : list Q) : Prop :=
  match xs with
  | [] => True
  | x :: xs' => (binary64 (a + x) == a + x)%Q /\ sums_exactly (a + x) xs'
  end.

(** The average of [xs] is computed without any rounding: neither the
    sum, nor the count, nor the quotient is rounded. *)
Definition averaged_exactly (xs : list Q) : Prop :=
  sums_exactly 0 xs /\
  (float_of_int (len xs) == inject_Z (len xs))%Q /\
  (binary64 (mean xs) == mean xs)%Q.

(** The submissions of a run all reach the file and all fold to [k]. *)
Definition targets (k : string) (subs : list (Env * PlayerReport.t)) : Prop :=
  Forall (fun s => storage_works s.1 /\ lower (PlayerReport.username s.2) = k)
         subs.

(** The risk scores of a run, in order. *)
Definition scores (subs : list (Env * PlayerReport.t)) : list Q :=
  (fun s => PlayerReport.risk_score s.2) <$> subs.

(** ** Sample values *)

(** An environment with working storage and a report carrying only the
    mandatory fields, used to run the model on concrete inputs. *)
Definition sample_env (t : datetime) : Env := mkEnv t false false false.

Definition sample_report (username : string) (risk_score : Q)
    : PlayerReport.t :=
  PlayerReport.mk username risk_score "blitz" None None None None None.

(** A report that carries its own timestamp. *)
Definition sample_report_at (username : string) (risk_score : Q) (t : datetime)
    : PlayerReport.t :=
  PlayerReport.mk username risk_score "blitz" (Some t) None None None None.

(** Two submissions read off the clock. *)
Definition clock_run : list (Env * Request) :=
  [(sample_env 1000, Submit (sample_report "Foo" 50%Q));
   (sample_env 1001, Submit (sample_report "Foo" 50%Q))].

(** A second submission dated before the first. *)
Definition backdated_run : list (Env * Request) :=
  [(sample_env 1000, Submit (sample_report_at "Foo" 50%Q 100));
   (sample_env 1001, Submit (sample_report_at "Foo" 50%Q 50))].

(** A second submission spelling the username in another casing. *)
Definition recased_run : list (Env * Request) :=
  [(sample_env 1000, Submit (sample_report "Foo" 50%Q));
   (sample_env 1001, Submit (sample_report "FOO" 50%Q))].

(** The username [get_player_reputation] answers with, if it finds one. *)
Definition lookup_username (r : Result PlayerLookup) : option string :=
  match r with
  | inr (Found view) => Some (PlayerView.username view)
  | _ => None
  end.

(** Two submissions scoring the floats written 0.1 and 0.2. *)
Definition rounded_average_run : list (Env * Request) :=
  [(sample_env 1000, Submit (sample_report "Foo" (binary64 0.1)));
   (sample_env 1001, Submit (sample_report "Foo" (binary64 0.2)))].

(** A ban followed by a low-score submission for the same player. *)
Definition banned_then_reported_run : list (Env * Request) :=
  [(sample_env 1000, Submit (sample_report "Foo" 10%Q));
   (sample_env 1001, MarkBanned "foo" true);
   (sample_env 1002, Submit (sample_report "Foo" 10%Q))].

(** An environment whose write fails before the file is opened, and one
    whose write fails after. *)
Definition failing_write_env (t : datetime) : Env := mkEnv t false true false.

Definition truncating_write_env (t : datetime) : Env :=
  mkEnv t false true true.

(** A player whose stored level is confirmed although the counts classify
    as low: one report, then a ban. *)
Definition banned_once_run : list (Env * Request) :=
  [(sample_env 1000, Submit (sample_report "Foo" 10%Q));
   (sample_env 1001, MarkBanned "foo" true)].

(** Three submissions leaving two entries, the second with more reports. *)
Definition two_players_run : list (Env * Request) :=
  [(sample_env 1000, Submit (sample_report "Foo" 50%Q));
   (sample_env 1001, Submit (sample_report "Bar" 90%Q));
   (sample_env 1002, Submit (sample_report "bar" 90%Q))].

(** ** Health *)

Module HealthCheck.
Record t := mk {
  status : string;
  version : string;
  uptime : string;
  total_reports : Z;
  last_updated : option datetime
}.
End HealthCheck.

(** [%02d] and [%06d] of a number that is not negative: zeros in front
    up to the width. *)
Fixpoint zeros (n : nat) : string :=
  match n with
  | O => EmptyString
  | S n' => String (Ascii.ascii_of_N 48) (zeros n')
  end.

Definition zero_pad (width : nat) (digits : string) : string :=
  zeros (width - String.length digits) +:+ digits.

(** [str(delta)] of a [timedelta], given in microseconds: the days when
    there are any, hours, minutes and seconds, and the microseconds when
    there are any. *)
Definition str_timedelta (delta : Z) : string :=
  let days := delta / 86400000000 in
  let seconds := (delta mod 86400000000) / 1000000 in
  let microseconds := (delta mod 86400000000) mod 1000000 in
  let mm := seconds / 60 in
  let ss := seconds mod 60 in
  let hh := mm / 60 in
  let mm := mm mod 60 in
  let s := pretty hh +:+ ":" +:+ zero_pad 2 (pretty mm) +:+ ":" +:+
           zero_pad 2 (pretty ss) in
  let s :=
    if days =? 0 then s
    else pretty days +:+ " day" +:+
         (if Z.abs days =? 1 then "" else "s") +:+ ", " +:+ s in
  if microseconds =? 0 then s
  else s +:+ "." +:+ zero_pad 6 (pretty microseconds).

(** [s.split('.')[0]]: the text before the first dot. *)
Fixpoint before_dot (s : string) : string :=
  match s with
  | EmptyString => EmptyString
  | String c s' => if Ascii.eqb c (Ascii.ascii_of_N 46) then EmptyString else String c (before_dot s')
  end.

(** [GET /health]. [start_time] is the clock read when the module was
    loaded; times count microseconds. *)
Definition health_check (start_time : datetime) (env : Env) (file : Data)
    : HealthCheck.t :=
  let data := load_reports env file in
  let uptime := now env - start_time in
  HealthCheck.mk "healthy" "2.0.0"
    (before_dot (str_timedelta uptime))
    (len (reports data))
    (match reports data with
     | [] => None
     | _ => last (reports data) ≫= PlayerReport.timestamp
     end).

(** ** Global statistics *)

Module TopPlayer.
Record t := mk {
  username : string;
  total_reports : Z;
  average_risk_score : Q;
  confidence_level : Level
}.
End TopPlayer.

Module GlobalStats.
Record t := mk {
  total_reports : Z;
  total_unique_players : Z;
  total_confirmed_cheaters : Z;
  reports_last_24h : Z;
  reports_last_7d : Z;
  top_reported_players : list TopPlayer.t
}.
End GlobalStats.

(** [timedelta(days=n)] in microseconds. *)
Definition timedelta_days (n : Z) : Z := n * 86400000000.

(** The loop over the reports: the two counters after it. The body of
    the loop is under a bare [except: pass]: a report whose timestamp is
    missing makes [fromisoformat] raise, one whose timestamp carries an
    offset makes the comparison with the naive [day_ago] raise, and both
    are passed over with the counters as they were. *)
Definition count_recent (day_ago week_ago : datetime)
    (reports : list PlayerReport.t) : Z * Z :=
  foldl (fun counts report =>
           match PlayerReport.timestamp report,
                 PlayerReport.timestamp_offset report with
           | None, _ | Some _, Some _ => counts
           | Some report_time, None =>
               let reports_24h :=
                 if day_ago <=? report_time then counts.1 + 1 else counts.1 in
               let reports_7d :=
                 if week_ago <=? report_time then counts.2 + 1 else counts.2 in
               (reports_24h, reports_7d)
           end)
        (0, 0) reports.

(** [sum(1 for rep in reputation.values() if ...)] *)
Definition count_confirmed (reputation : odict Rep.t) : Z :=
  foldl (fun n rep =>
           if Level_eqb (Rep.confidence_level rep) confirmed
              || Rep.is_banned rep
           then n + 1 else n)
        0 (odict_values reputation).

Definition top_player (rep : Rep.t) : TopPlayer.t :=
  TopPlayer.mk (Rep.username rep) (Rep.total_reports rep)
               (round2 (Rep.average_risk_score rep)) (Rep.confidence_level rep).

(** [xs.sort(key=..., reverse=True)] for any element type: stable, larger
    keys first. *)
Fixpoint insert_desc_by {A} (key : A -> Z) (x : A) (l : list A) : list A :=
  match l with
  | [] => [x]
  | y :: l' =>
      if key y <=? key x then x :: y :: l' else y :: insert_desc_by key x l'
  end.

Definition sort_desc_by {A} (key : A -> Z) (l : list A) : list A :=
  foldr (insert_desc_by key) [] l.

(** [GET /api/statistics/global]. Nothing in the body raises. *)
Definition get_global_statistics (env : Env) (file : Data)
    : Result GlobalStats.t :=
  let data := load_reports env file in
  let day_ago := now env - timedelta_days 1 in
  let week_ago := now env - timedelta_days 7 in
  let counts := count_recent day_ago week_ago (reports data) in
  let top_players :=
    sort_desc_by TopPlayer.total_reports
                 (top_player <$> odict_values (reputation data)) in
  inr (GlobalStats.mk
         (len (reports data))
         (len (reputation data))
         (count_confirmed (reputation data))
         counts.1 counts.2
         (slice_to top_players 10)).

(** ** Further notions used by the statements *)

(** The total of [total_reports] over the entries. *)
Definition reports_counted (reputation : odict Rep.t) : Z :=
  foldr (fun rep n => Rep.total_reports rep + n) 0 (odict_values reputation).

(** The entries account for every stored report. *)
Definition counted (file : Data) : Prop :=
  reports_counted (reputation file) = len (reports file).

(** The number of stored reports of the key [k] played in the format [f]. *)
Definition format_count (k f : string) (file : Data) : Z :=
  len (filter (fun r => PlayerReport.game_format r = f) (reports_of k file)).

(** The format counts of the entries are the counts of the stored reports. *)
Definition formats_consistent (file : Data) : Prop :=
  forall k rep f,
    odict_get k (reputation file) = Some rep ->
    Rep.formats rep !! f =
      if format_count k f file =? 0 then None
      else Some (format_count k f file).

(** What a search answers with, read off its outcome. *)
Definition search_total (r : Result SearchResponse.t) : Z :=
  match r with
  | inr resp => SearchResponse.total_found resp
  | inl _ => 0
  end.

Definition search_players (r : Result SearchResponse.t)
    : list PlayerSummary.t :=
  match r with
  | inr resp => SearchResponse.players resp
  | inl _ => []
  end.

(** What the statistics answer with, read off the outcome. *)
Definition stats_of (r : Result GlobalStats.t) : GlobalStats.t :=
  match r with
  | inr stats => stats
  | inl _ => GlobalStats.mk 0 0 0 0 0 []
  end.

(** Larger report counts first, for the players of the statistics. *)
Definition top_more_reports (a b : TopPlayer.t) : Prop :=
  TopPlayer.total_reports b <= TopPlayer.total_reports a.

(** An entry that the statistics count as a confirmed cheater. *)
Definition counts_as_confirmed (rep : Rep.t) : Prop :=
  Rep.confidence_level rep = confirmed \/ Rep.is_banned rep = true.

#[global] Instance counts_as_confirmed_dec rep :
  Decision (counts_as_confirmed rep).
Proof. unfold counts_as_confirmed. apply _. Defined.

(** A report with a naive timestamp at or after a given time. *)
Definition stamped_since (bound : datetime) (r : PlayerReport.t) : Prop :=
  match PlayerReport.timestamp r, PlayerReport.timestamp_offset r with
  | Some t, None => bound <= t
  | _, _ => False
  end.

#[global] Instance stamped_since_dec bound r : Decision (stamped_since bound r).
Proof.
  unfold stamped_since.
  destruct (PlayerReport.timestamp r), (PlayerReport.timestamp_offset r);
    apply _.
Defined.

(** * Properties *)

(** ** Dictionaries *)

Lemma odict_get_set_eq {V} k (v : V) d : odict_get k (odict_set k v d) = Some v.
Proof.
  induction d as [|[k' v'] d IH]; simpl.
  - by rewrite String.eqb_refl.
  - destruct (String.eqb k' k) eqn:E; simpl; rewrite E; auto.
Qed.

Lemma odict_get_set_ne {V} k k' (v : V) d :
  k <> k' -> odict_get k' (odict_set k v d) = odict_get k' d.
Proof.
  intros Hne. induction d as [|[k0 v0] d IH]; simpl.
  - destruct (String.eqb_spec k k'); congruence.
  - destruct (String.eqb_spec k0 k) as [->|]; simpl.
    + destruct (String.eqb_spec k k'); congruence.
    + destruct (String.eqb_spec k0 k'); congruence.
Qed.

(** ** Floats *)

(** Rounding sees the number, not the fraction that writes it. *)
#[global] Instance binary64_Proper : Proper (Qeq ==> eq) binary64.
Proof.
  intros x y Hxy. unfold binary64. by rewrite (Qred_complete x y Hxy).
Qed.

#[global] Instance float_add_Proper : Proper (Qeq ==> Qeq ==> eq) float_add.
Proof. intros a a' Ha b b' Hb. unfold float_add. by rewrite Ha, Hb. Qed.

#[global] Instance float_div_Proper : Proper (Qeq ==> Qeq ==> eq) float_div.
Proof. intros a a' Ha b b' Hb. unfold float_div. by rewrite Ha, Hb. Qed.

(** ** The classification *)

Ltac split_tests :=
  repeat match goal with
  | |- context [?a <=? ?b] => destruct (Z.leb_spec a b)
  | |- context [Qle_bool ?a ?b] =>
      let E := fresh "E" in
      destruct (Qle_bool a b) eqn:E;
      [apply Qle_bool_iff in E
      |assert (~ (a <= b)%Q) by (rewrite <- Qle_bool_iff; congruence); clear E]
  end.

Lemma confidence_confirmed_iff n a :
  calculate_confidence_level n a = confirmed <-> 10 <= n /\ (80 <= a)%Q.
Proof.
  unfold calculate_confidence_level.
  split_tests; simpl; split; try discriminate; try tauto;
    intros [? ?]; try lia; try lra.
Qed.

Lemma confidence_high_iff n a :
  calculate_confidence_level n a = high <->
  ~ (10 <= n /\ (80 <= a)%Q) /\ 5 <= n /\ (70 <= a)%Q.
Proof.
  unfold calculate_confidence_level.
  split_tests; simpl; split; try discriminate; try tauto;
    try (intros (? & ? & ?); try lia; try lra; tauto);
    try (intros _; repeat split; try lia; try lra; intros [? ?]; try lia; lra).
Qed.

Lemma confidence_medium_iff n a :
  calculate_confidence_level n a = medium <->
  ~ (10 <= n /\ (80 <= a)%Q) /\ ~ (5 <= n /\ (70 <= a)%Q) /\
  3 <= n /\ (60 <= a)%Q.
Proof.
  unfold calculate_confidence_level.
  split_tests; simpl; split; try discriminate; try tauto;
    try (intros (? & ? & ? & ?); try lia; try lra; tauto);
    try (intros _; repeat split; try lia; try lra; intros [? ?]; try lia; lra).
Qed.

Lemma confidence_low_iff n a :
  calculate_confidence_level n a = low <->
  ~ (10 <= n /\ (80 <= a)%Q) /\ ~ (5 <= n /\ (70 <= a)%Q) /\
  ~ (3 <= n /\ (60 <= a)%Q).
Proof.
  unfold calculate_confidence_level.
  split_tests; simpl; split; try discriminate; try tauto;
    try (intros (? & ? & ?); try lia; try lra; tauto);
    try (intros _; repeat split; intros [? ?]; try lia; lra).
Qed.

(** C7. The classification is monotone: with no fewer reports and no lower
    average, the level is the same tier or a higher one, in the order
    low < medium < high < confirmed. *)
Theorem calculate_confidence_level_monotone (r1 r2 : Z) (a1 a2 : Q) :
  r1 <= r2 -> (a1 <= a2)%Q ->
  Level_le (calculate_confidence_level r1 a1)
           (calculate_confidence_level r2 a2).
Proof.
  intros Hr Ha. unfold calculate_confidence_level, Level_le.
  split_tests; simpl; try lia; try lra.
Qed.

Lemma calculate_confidence_level_monotone_witness :
  4 <= 12 /\ (66.25 <= 85)%Q /\
  Level_le (calculate_confidence_level 4 (66.25)%Q)
           (calculate_confidence_level 12 (85)%Q).
Proof.
  assert (H1 : 4 <= 12) by lia.
  assert (H2 : (66.25 <= 85)%Q) by (vm_compute; discriminate).
  split; [exact H1 | split; [exact H2 |]].
  exact (calculate_confidence_level_monotone 4 12 (66.25)%Q (85)%Q H1 H2).
Defined.

(** ** What a submission does to the file *)

Lemma submit_report_file env report file :
  (submit_report env report file).1 =
  save_reports env (submit_data env report (load_reports env file)).1 file.
Proof.
  unfold submit_report.
  by destruct (submit_data env report (load_reports env file)).
Qed.

Lemma submit_report_response env report file :
  (submit_report env report file).2 =
  let rep := (submit_data env report (load_reports env file)).2 in
  inr (SubmitResponse.mk true "Report submitted successfully"
         (PlayerReport.username report)
         (Rep.total_reports rep) (Rep.confidence_level rep)).
Proof.
  unfold submit_report.
  by destruct (submit_data env report (load_reports env file)).
Qed.

Lemma storage_works_load env file :
  storage_works env -> load_reports env file = file.
Proof. intros [Hr _]. unfold load_reports. by rewrite Hr. Qed.

Lemma storage_works_save env data file :
  storage_works env -> save_reports env data file = data.
Proof. intros [_ Hw]. unfold save_reports. by rewrite Hw. Qed.

Lemma submit_data_rep env report data :
  (submit_data env report data).2 =
  fold_report
    (default (new_rep report (report_time env report))
             (odict_get (lower (PlayerReport.username report))
                        (reputation data)))
    report (report_time env report).
Proof.
  unfold submit_data; simpl.
  by destruct (odict_get _ (reputation data)).
Qed.

Lemma submit_data_lookup env report data :
  odict_get (lower (PlayerReport.username report))
            (reputation (submit_data env report data).1) =
  Some (submit_data env report data).2.
Proof. unfold submit_data; simpl. apply odict_get_set_eq. Qed.

Lemma submit_data_lookup_ne env report data k :
  lower (PlayerReport.username report) <> k ->
  odict_get k (reputation (submit_data env report data).1) =
  odict_get k (reputation data).
Proof. intros Hne. unfold submit_data; simpl. by apply odict_get_set_ne. Qed.

Lemma submit_data_reports env report data :
  reports (submit_data env report data).1 =
  reports data ++
  [PlayerReport.with_timestamp report (report_time env report)].
Proof. reflexivity. Qed.

(** One submission with working storage, seen from the key it touches. *)
Lemma submit_report_step env report file :
  storage_works env ->
  let rep :=
    fold_report
      (default (new_rep report (report_time env report))
               (odict_get (lower (PlayerReport.username report))
                          (reputation file)))
      report (report_time env report) in
  odict_get (lower (PlayerReport.username report))
            (reputation (submit_report env report file).1) = Some rep /\
  response_level (submit_report env report file).2 =
    Some (Rep.confidence_level rep).
Proof.
  intros Hw rep. rewrite submit_report_file, submit_report_response.
  rewrite storage_works_load, storage_works_save by done.
  rewrite submit_data_lookup, submit_data_rep. done.
Qed.

(** ** The classification policy on a run of submissions *)

(** C3. The classification answers confirmed exactly from 10 reports and
    an average of 80; failing that, high exactly from 5 reports and 70;
    failing that, medium exactly from 3 reports and 60; and low otherwise.
    Four submissions scoring 50, 50, 75 and 90 for a username the file does
    not know, with working storage, are answered low, low, low and medium,
    and the stored average is then 66.25. *)
Theorem confidence_policy_and_scenario :
  (forall n a,
      (calculate_confidence_level n a = confirmed <->
         10 <= n /\ (80 <= a)%Q) /\
      (calculate_confidence_level n a = high <->
         ~ (10 <= n /\ (80 <= a)%Q) /\ 5 <= n /\ (70 <= a)%Q) /\
      (calculate_confidence_level n a = medium <->
         ~ (10 <= n /\ (80 <= a)%Q) /\ ~ (5 <= n /\ (70 <= a)%Q) /\
         3 <= n /\ (60 <= a)%Q) /\
      (calculate_confidence_level n a = low <->
         ~ (10 <= n /\ (80 <= a)%Q) /\ ~ (5 <= n /\ (70 <= a)%Q) /\
         ~ (3 <= n /\ (60 <= a)%Q))) /\
  (forall file e1 e2 e3 e4 r1 r2 r3 r4 k,
      storage_works e1 -> storage_works e2 ->
      storage_works e3 -> storage_works e4 ->
      lower (PlayerReport.username r1) = k ->
      lower (PlayerReport.username r2) = k ->
      lower (PlayerReport.username r3) = k ->
      lower (PlayerReport.username r4) = k ->
      odict_get k (reputation file) = None ->
      (PlayerReport.risk_score r1 == 50)%Q ->
      (PlayerReport.risk_score r2 == 50)%Q ->
      (PlayerReport.risk_score r3 == 75)%Q ->
      (PlayerReport.risk_score r4 == 90)%Q ->
      let out := submit_all [(e1, r1); (e2, r2); (e3, r3); (e4, r4)] file in
      response_level <$> out.2 = [Some low; Some low; Some low; Some medium] /\
      exists rep,
        odict_get k (reputation out.1) = Some rep /\
        Rep.confidence_level rep = medium /\
        (Rep.average_risk_score rep == 66.25)%Q).
Proof.
  split.
  { intros n a.
    auto using confidence_confirmed_iff, confidence_high_iff,
      confidence_medium_iff, confidence_low_iff. }
  intros file e1 e2 e3 e4 r1 r2 r3 r4 k W1 W2 W3 W4 K1 K2 K3 K4 Hfresh
    S1 S2 S3 S4.
  cbn [submit_all fst snd fmap list_fmap].
  destruct (submit_report_step e1 r1 file W1) as [L1 R1].
  rewrite K1, Hfresh in L1, R1. simpl default in L1, R1.
  set (f1 := (submit_report e1 r1 file).1) in *.
  destruct (submit_report_step e2 r2 f1 W2) as [L2 R2].
  rewrite K2, L1 in L2, R2. simpl default in L2, R2.
  set (f2 := (submit_report e2 r2 f1).1) in *.
  destruct (submit_report_step e3 r3 f2 W3) as [L3 R3].
  rewrite K3, L2 in L3, R3. simpl default in L3, R3.
  set (f3 := (submit_report e3 r3 f2).1) in *.
  destruct (submit_report_step e4 r4 f3 W4) as [L4 R4].
  rewrite K4, L3 in L4, R4. simpl default in L4, R4.
  rewrite R1, R2, R3, R4, L4. clear - S1 S2 S3 S4.
  assert (Hlevels :
    [Some (Rep.confidence_level
             (fold_report (new_rep r1 (report_time e1 r1)) r1
                (report_time e1 r1)));
     Some (Rep.confidence_level
             (fold_report
                (fold_report (new_rep r1 (report_time e1 r1)) r1
                   (report_time e1 r1)) r2 (report_time e2 r2)));
     Some (Rep.confidence_level
             (fold_report
                (fold_report
                   (fold_report (new_rep r1 (report_time e1 r1)) r1
                      (report_time e1 r1)) r2 (report_time e2 r2))
                r3 (report_time e3 r3)));
     Some (Rep.confidence_level
             (fold_report
                (fold_report
                   (fold_report
                      (fold_report (new_rep r1 (report_time e1 r1)) r1
                         (report_time e1 r1)) r2 (report_time e2 r2))
                   r3 (report_time e3 r3)) r4 (report_time e4 r4)))] =
    [Some low; Some low; Some low; Some medium]).
  { cbn [fold_report new_rep Rep.confidence_level Rep.total_reports
         Rep.risk_scores app].
    unfold sum, len. cbn [foldl length app].
    rewrite S1, S2, S3, S4. vm_compute. reflexivity. }
  split; [exact Hlevels|].
  eexists. split; [reflexivity|]. split.
  - congruence.
  - cbn [fold_report new_rep Rep.average_risk_score Rep.risk_scores app].
    unfold sum, len. cbn [foldl length].
    rewrite S1, S2, S3, S4. vm_compute. reflexivity.
Qed.

Lemma confidence_policy_and_scenario_witness :
  let env := sample_env 1000 in
  let r s := sample_report "Foo" s in
  let out :=
    submit_all [(env, r 50%Q); (env, r 50%Q); (env, r 75%Q); (env, r 90%Q)]
               initial_file in
  response_level <$> out.2 = [Some low; Some low; Some low; Some medium] /\
  exists rep,
    odict_get "foo" (reputation out.1) = Some rep /\
    Rep.confidence_level rep = medium /\
    (Rep.average_risk_score rep == 66.25)%Q.
Proof.
  intros env r.
  apply (proj2 confidence_policy_and_scenario initial_file env env env env
           (r 50%Q) (r 50%Q) (r 75%Q) (r 90%Q) "foo");
    first [ split; reflexivity | reflexivity ].
Defined.

(** ** Entries and the stored reports of their key *)

Lemma formats_total_empty : formats_total ∅ = 0.
Proof. unfold formats_total. apply map_fold_empty. Qed.

Lemma formats_total_insert (m : gmap string Z) k n :
  m !! k = None -> formats_total (<[k := n]> m) = n + formats_total m.
Proof.
  intros H. unfold formats_total.
  rewrite map_fold_insert_L; [done | intros; lia | done].
Qed.

Lemma formats_total_increment (m : gmap string Z) k :
  formats_total (<[k := default 0 (m !! k) + 1]> m) = formats_total m + 1.
Proof.
  destruct (m !! k) as [n|] eqn:E; simpl.
  - rewrite <- insert_delete_eq.
    rewrite formats_total_insert by apply lookup_delete_eq.
    unfold formats_total at 2.
    rewrite (map_fold_delete_L _ _ k n m); [fold (formats_total (delete k m)); lia | intros; lia | done].
  - rewrite formats_total_insert by done. lia.
Qed.

Lemma foldl_float_add_Proper xs : forall a a',
  (a == a')%Q -> (foldl float_add a xs == foldl float_add a' xs)%Q.
Proof.
  induction xs as [|x xs IH]; intros a a' Ha; cbn [foldl]; [done|].
  apply IH. by rewrite Ha.
Qed.

Lemma sum_exactly xs : forall a,
  sums_exactly a xs -> (foldl float_add a xs == a + foldr Qplus 0 xs)%Q.
Proof.
  induction xs as [|x xs IH]; intros a; cbn [foldl foldr sums_exactly].
  - intros _. ring.
  - intros [Hx Hxs]. rewrite (foldl_float_add_Proper xs _ (a + x)%Q Hx).
    rewrite (IH _ Hxs). ring.
Qed.

Lemma average_exactly xs :
  averaged_exactly xs ->
  (float_div (sum xs) (float_of_int (len xs)) == mean xs)%Q.
Proof.
  intros (Hsum & Hlen & Hq). unfold float_div, sum.
  assert (E : (foldl float_add 0 xs / float_of_int (len xs) == mean xs)%Q).
  { rewrite (sum_exactly xs 0%Q Hsum), Hlen. unfold mean, len.
    apply Qdiv_comp; [ring | reflexivity]. }
  by rewrite (binary64_Proper _ _ E).
Qed.

Lemma entry_consistent_fold k file rep report ts :
  lower (PlayerReport.username report) = k ->
  entry_consistent k file rep ->
  entry_consistent k
    (mkData (reports file ++ [PlayerReport.with_timestamp report ts])
            (odict_set k (fold_report rep report ts) (reputation file)))
    (fold_report rep report ts).
Proof.
  intros Hk ((tl & Htl & Hhd & Hlast) & Hname & Hscores & Htotal & Hfmt & Havg).
  unfold entry_consistent.
  replace (reports_of k _) with
    (reports_of k file ++ [PlayerReport.with_timestamp report ts]).
  2:{ unfold reports_of; simpl. rewrite filter_app. f_equal.
      rewrite filter_cons. simpl. by rewrite decide_True. }
  cbn [fold_report Rep.first_reported Rep.last_reported Rep.username
       Rep.risk_scores Rep.total_reports Rep.formats Rep.average_risk_score].
  repeat split.
  - exists (tl ++ [ts]). rewrite !fmap_app, Htl. split; [done|].
    split; [|apply last_snoc].
    rewrite head_snoc, Hhd. done.
  - destruct (reports_of k file); [done|]. done.
  - rewrite fmap_app, Hscores. done.
  - unfold len. rewrite length_app. simpl. unfold len in Htotal. lia.
  - rewrite formats_total_increment. lia.
Qed.

Lemma entry_consistent_new k file report ts :
  lower (PlayerReport.username report) = k ->
  reports_of k file = [] ->
  entry_consistent k
    (mkData (reports file ++ [PlayerReport.with_timestamp report ts])
            (odict_set k (fold_report (new_rep report ts) report ts)
                       (reputation file)))
    (fold_report (new_rep report ts) report ts).
Proof.
  intros Hk Hnone. unfold entry_consistent.
  replace (reports_of k _) with [PlayerReport.with_timestamp report ts].
  2:{ unfold reports_of in *; simpl. rewrite filter_app, Hnone.
      rewrite filter_cons. simpl. by rewrite decide_True. }
  cbn [fold_report new_rep Rep.first_reported Rep.last_reported Rep.username
       Rep.risk_scores Rep.total_reports Rep.formats Rep.average_risk_score].
  repeat split.
  - by exists [ts].
  - rewrite formats_total_increment, formats_total_empty. lia.
Qed.

Lemma entry_consistent_other k file rep file' :
  reports_of k file' = reports_of k file ->
  entry_consistent k file rep -> entry_consistent k file' rep.
Proof. unfold entry_consistent. by intros ->. Qed.

Lemma submit_data_consistent env report data :
  file_consistent data -> file_consistent (submit_data env report data).1.
Proof.
  intros Hc k. unfold submit_data. cbn [fst reputation].
  set (k0 := lower (PlayerReport.username report)).
  set (ts := report_time env report).
  destruct (decide (k0 = k)) as [<-|Hne].
  - rewrite odict_get_set_eq. specialize (Hc k0).
    destruct (odict_get k0 (reputation data)) as [rep|].
    + by apply entry_consistent_fold.
    + by apply entry_consistent_new.
  - rewrite odict_get_set_ne by done. specialize (Hc k).
    assert (Hrs : reports_of k
              (mkData (reports data ++ [PlayerReport.with_timestamp report ts])
                 (odict_set k0
                    (fold_report
                       match odict_get k0 (reputation data) with
                       | Some rep => rep
                       | None => new_rep report ts
                       end report ts) (reputation data))) = reports_of k data).
    { unfold reports_of; simpl. rewrite filter_app, filter_cons. simpl.
      rewrite decide_False by done. apply app_nil_r. }
    destruct (odict_get k (reputation data)) as [rep|].
    + by apply (entry_consistent_other k data).
    + by rewrite Hrs.
Qed.

Lemma empty_data_consistent : file_consistent empty_data.
Proof. intros k. reflexivity. Qed.

Lemma submit_report_consistent env report file :
  file_consistent file -> file_consistent (submit_report env report file).1.
Proof.
  intros Hc. rewrite submit_report_file. unfold save_reports, load_reports.
  destruct (write_fails env);
      [destruct (write_truncates env);
         [first [ apply empty_data_consistent
                | apply empty_data_formats_consistent
                | constructor
                | done ]
         | done]|].
  apply submit_data_consistent.
  destruct (read_fails env); [apply empty_data_consistent | done].
Qed.

Lemma mark_player_banned_consistent env username banned file :
  file_consistent file ->
  file_consistent (mark_player_banned env username banned file).1.
Proof.
  intros Hc. unfold mark_player_banned.
  destruct (odict_get (lower username) (reputation (load_reports env file)))
    as [rep|] eqn:E; simpl; [|done].
  unfold save_reports. destruct (write_fails env);
      [destruct (write_truncates env);
         [first [ apply empty_data_consistent
                | apply empty_data_formats_consistent
                | constructor
                | done ]
         | done]|].
  assert (Hl : file_consistent (load_reports env file)).
  { unfold load_reports. destruct (read_fails env);
      [apply empty_data_consistent | done]. }
  intros k. simpl.
  destruct (decide (lower username = k)) as [<-|Hne].
  - rewrite odict_get_set_eq. specialize (Hl (lower username)).
    rewrite E in Hl. exact Hl.
  - rewrite odict_get_set_ne by done. specialize (Hl k).
    destruct (odict_get k (reputation (load_reports env file))); exact Hl.
Qed.

Lemma reachable_consistent file : reachable file -> file_consistent file.
Proof.
  induction 1 as [|env [report|username banned] file _ IH].
  - apply empty_data_consistent.
  - by apply submit_report_consistent.
  - by apply mark_player_banned_consistent.
Qed.


(** ** Runs of submissions for one key *)

Lemma reachable_run steps : forall file, reachable file -> reachable (run steps file).
Proof.
  induction steps as [|[env rq] steps IH]; intros file Hr; [done|].
  apply IH. by constructor.
Qed.


Lemma load_reports_consistent env file :
  file_consistent file -> file_consistent (load_reports env file).
Proof.
  intros Hc. unfold load_reports.
  destruct (read_fails env); [apply empty_data_consistent | done].
Qed.

Lemma submit_all_known subs : forall file k rep0,
  odict_get k (reputation file) = Some rep0 ->
  targets k subs ->
  exists rep,
    odict_get k (reputation (submit_all subs file).1) = Some rep /\
    Rep.risk_scores rep = Rep.risk_scores rep0 ++ scores subs /\
    Rep.total_reports rep = Rep.total_reports rep0 + len subs /\
    (subs = [] -> rep = rep0) /\
    (subs <> [] ->
     Rep.average_risk_score rep =
       float_div (sum (Rep.risk_scores rep))
                 (float_of_int (len (Rep.risk_scores rep)))).
Proof.
  induction subs as [|[env report] subs IH]; intros file k rep0 Hget Ht.
  - exists rep0. simpl. rewrite app_nil_r. unfold len; simpl.
    repeat split; [done | lia | done].
  - apply Forall_cons in Ht as [[Hw Hk] Ht]. simpl in Hw, Hk.
    destruct (submit_report_step env report file Hw) as [Hstep _].
    rewrite Hk, Hget in Hstep. simpl default in Hstep.
    destruct (IH _ _ _ Hstep Ht) as (rep & Hrep & Hsc & Htot & Hnil & Havg).
    exists rep. cbn [submit_all fst]. split; [exact Hrep|].
    split; [|split; [|split; [done|]]].
    + rewrite Hsc. cbn [fold_report Rep.risk_scores]. unfold scores.
      rewrite fmap_cons. simpl. by rewrite <- app_assoc.
    + rewrite Htot. cbn [fold_report Rep.total_reports]. unfold len. simpl length.
      lia.
    + intros _. destruct subs as [|s subs].
      * rewrite (Hnil eq_refl). reflexivity.
      * by apply Havg.
Qed.

Lemma submit_all_fresh subs file k :
  odict_get k (reputation file) = None ->
  subs <> [] ->
  targets k subs ->
  exists rep,
    odict_get k (reputation (submit_all subs file).1) = Some rep /\
    Rep.risk_scores rep = scores subs /\
    Rep.total_reports rep = len subs /\
    Rep.average_risk_score rep =
      float_div (sum (Rep.risk_scores rep))
                 (float_of_int (len (Rep.risk_scores rep))).
Proof.
  intros Hget Hne Ht. destruct subs as [|[env report] subs]; [done|].
  apply Forall_cons in Ht as [[Hw Hk] Ht]. simpl in Hw, Hk.
  destruct (submit_report_step env report file Hw) as [Hstep _].
  rewrite Hk, Hget in Hstep. simpl default in Hstep.
  destruct (submit_all_known subs _ _ _ Hstep Ht)
    as (rep & Hrep & Hsc & Htot & Hnil & Havg).
  exists rep. cbn [submit_all fst]. split; [exact Hrep|].
  split; [|split].
  - rewrite Hsc. reflexivity.
  - rewrite Htot. cbn [fold_report new_rep Rep.total_reports].
    unfold len. simpl length. lia.
  - destruct subs as [|s subs].
    + rewrite (Hnil eq_refl). reflexivity.
    + by apply Havg.
Qed.




(** ** First and last report of an entry *)

Lemma foldr_min_le t ts : Forall (Z.le t) ts -> foldr Z.min t ts = t.
Proof. induction 1 as [|x l Hx _ IH]; simpl; [done|]. rewrite IH. lia. Qed.

Lemma foldr_max_ge t ts : t <= foldr Z.max t ts.
Proof. induction ts as [|x l IH]; simpl; lia. Qed.

Lemma foldr_max_swap a b ts :
  Z.max a (foldr Z.max b ts) = Z.max b (foldr Z.max a ts).
Proof. induction ts as [|x l IH]; simpl; lia. Qed.

Lemma latest_sorted ts : StronglySorted Z.le ts -> latest ts = last ts.
Proof.
  induction 1 as [|t ts Hs IH Hall]; [done|].
  destruct ts as [|x ts]; [done|].
  change (last (t :: x :: ts)) with (last (x :: ts)). rewrite <- IH.
  simpl. f_equal. rewrite foldr_max_swap.
  apply Forall_cons in Hall as [Htx _].
  pose proof (foldr_max_ge x ts). lia.
Qed.

Lemma earliest_sorted ts : StronglySorted Z.le ts -> earliest ts = head ts.
Proof.
  destruct 1 as [|t ts Hs Hall]; [done|]. simpl. f_equal.
  by apply foldr_min_le.
Qed.

(** C5 (amended). In every file the server has reached, [first_reported]
    of an entry is the timestamp of the first stored report of its key and
    [last_reported] the timestamp of the last one, in the order of
    submission; they are the earliest and the most recent timestamps when
    the timestamps do not decrease along that order. *)
Theorem first_last_reported file k rep :
  reachable file ->
  odict_get k (reputation file) = Some rep ->
  exists ts,
    PlayerReport.timestamp <$> reports_of k file = Some <$> ts /\
    head ts = Some (Rep.first_reported rep) /\
    last ts = Some (Rep.last_reported rep) /\
    (StronglySorted Z.le ts ->
     earliest ts = Some (Rep.first_reported rep) /\
     latest ts = Some (Rep.last_reported rep)).
Proof.
  intros Hreach Hget. pose proof (reachable_consistent file Hreach k) as Hc.
  rewrite Hget in Hc. destruct Hc as ((ts & Hts & Hhd & Hlast) & _).
  exists ts. repeat split; try done.
  - rewrite <- Hhd. by apply earliest_sorted.
  - rewrite <- Hlast. by apply latest_sorted.
Qed.

Lemma first_last_reported_witness :
  exists rep,
    odict_get "foo" (reputation (run clock_run initial_file)) = Some rep /\
    exists ts,
      PlayerReport.timestamp <$> reports_of "foo" (run clock_run initial_file)
        = Some <$> ts /\
      head ts = Some (Rep.first_reported rep) /\
      last ts = Some (Rep.last_reported rep) /\
      (StronglySorted Z.le ts ->
       earliest ts = Some (Rep.first_reported rep) /\
       latest ts = Some (Rep.last_reported rep)).
Proof.
  eexists. split; [vm_compute; reflexivity|].
  apply (first_last_reported (run clock_run initial_file) "foo").
  - apply reachable_run, reachable_init.
  - vm_compute. reflexivity.
Defined.

Lemma first_last_reported_counterexample :
  reachable (run backdated_run initial_file) /\
  exists rep,
    odict_get "foo" (reputation (run backdated_run initial_file)) = Some rep /\
    PlayerReport.timestamp <$> reports_of "foo" (run backdated_run initial_file)
      = [Some 100; Some 50] /\
    Some (Rep.first_reported rep) <> earliest [100; 50] /\
    Some (Rep.last_reported rep) <> latest [100; 50].
Proof.
  split; [apply reachable_run, reachable_init|].
  eexists. split; [vm_compute; reflexivity|].
  split; [vm_compute; reflexivity|].
  split; vm_compute; congruence.
Qed.

(** ** Banning *)

Lemma mark_player_banned_step env username banned file rep :
  storage_works env ->
  odict_get (lower username) (reputation file) = Some rep ->
  mark_player_banned env username banned file =
  (mkData (reports file)
          (odict_set (lower username)
             (Rep.set_confidence_level
                (if banned then confirmed else Rep.confidence_level rep)
                (Rep.set_is_banned banned rep))
             (reputation file)),
   inr (BanResponse.mk true
          ("Player " +:+ username +:+ " marked as " +:+
           (if banned then "banned" else "not banned"))
          username banned)).
Proof.
  intros Hw Hget. unfold mark_player_banned.
  rewrite storage_works_load by done. rewrite Hget. simpl.
  by rewrite storage_works_save.
Qed.

(** C1 (amended). Marking a player as banned stores [is_banned] and sets the
    confidence level to confirmed at that request. A later submission for
    the player keeps [is_banned] and computes the level from the new
    [total_reports] and average, banned or not: the level is then confirmed
    exactly when there are at least 10 reports averaging at least 80. *)
Theorem banned_confidence_level :
  (forall file env username rep,
      storage_works env ->
      odict_get (lower username) (reputation file) = Some rep ->
      exists rep',
        odict_get (lower username)
          (reputation (mark_player_banned env username true file).1) =
          Some rep' /\
        Rep.is_banned rep' = true /\
        Rep.confidence_level rep' = confirmed) /\
  (forall file env report rep,
      storage_works env ->
      odict_get (lower (PlayerReport.username report)) (reputation file) =
        Some rep ->
      exists rep',
        odict_get (lower (PlayerReport.username report))
          (reputation (submit_report env report file).1) = Some rep' /\
        Rep.is_banned rep' = Rep.is_banned rep /\
        Rep.confidence_level rep' =
          calculate_confidence_level (Rep.total_reports rep')
                                     (Rep.average_risk_score rep') /\
        (Rep.confidence_level rep' = confirmed <->
         10 <= Rep.total_reports rep' /\
         (80 <= Rep.average_risk_score rep')%Q)).
Proof.
  split.
  - intros file env username rep Hw Hget.
    rewrite (mark_player_banned_step env username true file rep Hw Hget).
    eexists. split; [apply odict_get_set_eq|]. done.
  - intros file env report rep Hw Hget.
    destruct (submit_report_step env report file Hw) as [Hstep _].
    rewrite Hget in Hstep. simpl default in Hstep.
    eexists. split; [exact Hstep|].
    split; [reflexivity|]. split; [reflexivity|].
    apply confidence_confirmed_iff.
Qed.

Lemma banned_confidence_level_witness :
  (exists rep',
      odict_get "foo"
        (reputation
           (mark_player_banned (sample_env 1001) "Foo" true
              (run [(sample_env 1000, Submit (sample_report "Foo" 10%Q))]
                   initial_file)).1) = Some rep' /\
      Rep.is_banned rep' = true /\
      Rep.confidence_level rep' = confirmed) /\
  (exists rep',
      odict_get "foo"
        (reputation
           (submit_report (sample_env 1001) (sample_report "Foo" 10%Q)
              (run [(sample_env 1000, Submit (sample_report "Foo" 10%Q))]
                   initial_file)).1) = Some rep' /\
      Rep.is_banned rep' = false /\
      Rep.confidence_level rep' =
        calculate_confidence_level (Rep.total_reports rep')
                                   (Rep.average_risk_score rep') /\
      (Rep.confidence_level rep' = confirmed <->
       10 <= Rep.total_reports rep' /\
       (80 <= Rep.average_risk_score rep')%Q)).
Proof.
  split.
  - apply (proj1 banned_confidence_level
             (run [(sample_env 1000, Submit (sample_report "Foo" 10%Q))]
                  initial_file)
             (sample_env 1001) "Foo"
             (Rep.mk "Foo" 1 [10%Q] {["blitz" := 1]} 1000 1000 false 10%Q low)).
    + split; reflexivity.
    + vm_compute. reflexivity.
  - apply (proj2 banned_confidence_level
             (run [(sample_env 1000, Submit (sample_report "Foo" 10%Q))]
                  initial_file)
             (sample_env 1001) (sample_report "Foo" 10%Q)
             (Rep.mk "Foo" 1 [10%Q] {["blitz" := 1]} 1000 1000 false 10%Q low)).
    + split; reflexivity.
    + vm_compute. reflexivity.
Defined.

Lemma banned_confidence_level_counterexample :
  reachable (run banned_then_reported_run initial_file) /\
  (exists rep,
      odict_get "foo"
        (reputation (run (take 2 banned_then_reported_run) initial_file)) =
        Some rep /\
      Rep.is_banned rep = true /\ Rep.confidence_level rep = confirmed) /\
  (exists rep,
      odict_get "foo"
        (reputation (run banned_then_reported_run initial_file)) = Some rep /\
      Rep.is_banned rep = true /\
      Rep.confidence_level rep = low /\
      Rep.confidence_level rep <> confirmed).
Proof.
  split; [apply reachable_run, reachable_init|]. split.
  - eexists. split; [vm_compute; reflexivity|]. by vm_compute.
  - eexists. split; [vm_compute; reflexivity|]. by vm_compute.
Qed.

(** ** A failing write *)

(** C2 (amended). When the write of a submission fails, [save_reports]
    swallows the error: the caller receives the success answer it would
    receive had the write succeeded, not a failure. The file keeps what was
    persisted before when the write fails before the file is opened; when
    it fails after [write_text] has opened the file, the file is left
    truncated, what was persisted is lost, and every later request reads
    the empty document. *)
Theorem submit_report_write_failure env report file :
  write_fails env = true ->
  (exists resp,
      (submit_report env report file).2 = inr resp /\
      SubmitResponse.success resp = true /\
      SubmitResponse.message resp = "Report submitted successfully") /\
  (submit_report env report file).2 =
    (submit_report
       (mkEnv (now env) (read_fails env) false (write_truncates env))
       report file).2 /\
  (write_truncates env = false ->
   (submit_report env report file).1 = file) /\
  (write_truncates env = true ->
   (submit_report env report file).1 = truncated_file /\
   forall env',
     load_reports env' (submit_report env report file).1 = empty_data).
Proof.
  intros Hw. rewrite submit_report_file, !submit_report_response.
  unfold save_reports. rewrite Hw. split.
  { eexists. split; [reflexivity|]. done. }
  split; [done|]. split; intros ->; [done|].
  split; [done|]. intros env'. unfold load_reports.
  by destruct (read_fails env').
Qed.

Lemma submit_report_write_failure_witness :
  ((exists resp,
       (submit_report (failing_write_env 1002) (sample_report "Foo" 50%Q)
          (run clock_run initial_file)).2 = inr resp /\
       SubmitResponse.success resp = true /\
       SubmitResponse.message resp = "Report submitted successfully") /\
   (submit_report (failing_write_env 1002) (sample_report "Foo" 50%Q)
      (run clock_run initial_file)).1 = run clock_run initial_file) /\
  (submit_report (truncating_write_env 1002) (sample_report "Foo" 50%Q)
     (run clock_run initial_file)).1 = truncated_file.
Proof.
  split.
  - destruct (submit_report_write_failure (failing_write_env 1002)
                (sample_report "Foo" 50%Q) (run clock_run initial_file)
                eq_refl) as (Hresp & _ & Hkeep & _).
    split; [exact Hresp | exact (Hkeep eq_refl)].
  - destruct (submit_report_write_failure (truncating_write_env 1002)
                (sample_report "Foo" 50%Q) (run clock_run initial_file)
                eq_refl) as (_ & _ & _ & Hlost).
    exact (proj1 (Hlost eq_refl)).
Defined.

Lemma submit_report_write_failure_counterexample :
  (write_fails (failing_write_env 1000) = true /\
   (submit_report (failing_write_env 1000) (sample_report "Foo" 50%Q)
      initial_file).2 =
   inr (SubmitResponse.mk true "Report submitted successfully" "Foo" 1 low) /\
   forall e,
     (submit_report (failing_write_env 1000) (sample_report "Foo" 50%Q)
        initial_file).2 <> inl e) /\
  (write_fails (truncating_write_env 1002) = true /\
   len (reports (run clock_run initial_file)) = 2 /\
   reports
     (submit_report (truncating_write_env 1002) (sample_report "Foo" 50%Q)
        (run clock_run initial_file)).1 = [] /\
   (submit_report (truncating_write_env 1002) (sample_report "Foo" 50%Q)
      (run clock_run initial_file)).1 <> run clock_run initial_file).
Proof.
  split.
  - split; [reflexivity|]. split; [vm_compute; reflexivity|].
    intros e. vm_compute. discriminate.
  - split; [reflexivity|]. split; [reflexivity|]. split; [reflexivity|].
    vm_compute. discriminate.
Qed.

(** ** Lifting a ban, and players without an entry *)

(** C9. For a player that has an entry, marking the player as not banned
    with working storage stores [is_banned = False] and leaves the
    confidence level as it was, whatever the classification of the current
    counts would be; the other fields of the entry, the other entries and
    the list of reports are unchanged. *)
Theorem unban_keeps_confidence_level file env username rep :
  storage_works env ->
  odict_get (lower username) (reputation file) = Some rep ->
  exists rep',
    odict_get (lower username)
      (reputation (mark_player_banned env username false file).1) =
      Some rep' /\
    Rep.is_banned rep' = false /\
    Rep.confidence_level rep' = Rep.confidence_level rep /\
    Rep.username rep' = Rep.username rep /\
    Rep.total_reports rep' = Rep.total_reports rep /\
    Rep.risk_scores rep' = Rep.risk_scores rep /\
    Rep.average_risk_score rep' = Rep.average_risk_score rep /\
    Rep.first_reported rep' = Rep.first_reported rep /\
    Rep.last_reported rep' = Rep.last_reported rep /\
    Rep.formats rep' = Rep.formats rep /\
    reports (mark_player_banned env username false file).1 = reports file /\
    (forall k, k <> lower username ->
       odict_get k (reputation (mark_player_banned env username false file).1)
       = odict_get k (reputation file)) /\
    (mark_player_banned env username false file).2 =
      inr (BanResponse.mk true
             ("Player " +:+ username +:+ " marked as not banned")
             username false).
Proof.
  intros Hw Hget.
  rewrite (mark_player_banned_step env username false file rep Hw Hget).
  eexists. split; [apply odict_get_set_eq|].
  repeat split. intros k Hk. simpl. by apply odict_get_set_ne.
Qed.

Lemma unban_keeps_confidence_level_witness :
  exists rep',
    odict_get "foo"
      (reputation
         (mark_player_banned (sample_env 1002) "Foo" false
            (run banned_once_run initial_file)).1) = Some rep' /\
    Rep.is_banned rep' = false /\
    Rep.confidence_level rep' = confirmed /\
    calculate_confidence_level (Rep.total_reports rep')
      (Rep.average_risk_score rep') = low.
Proof.
  destruct (unban_keeps_confidence_level (run banned_once_run initial_file)
              (sample_env 1002) "Foo"
              (Rep.mk "Foo" 1 [10%Q] {["blitz" := 1]} 1000 1000 true 10%Q
                 confirmed))
    as (rep' & Hget & Hb & Hc & _ & Ht & _ & Ha & _).
  - split; reflexivity.
  - vm_compute. reflexivity.
  - exists rep'. split; [exact Hget|]. split; [exact Hb|]. split; [exact Hc|].
    rewrite Ht, Ha. reflexivity.
Defined.

(** C10. Marking a player that has no entry changes nothing and saves
    nothing: the 404 raised for it is caught by the handler's own
    [except Exception] and the caller receives a 500 whose detail is the
    text of the 404, not a 404. *)
Theorem mark_unknown_player_is_500 env username banned file :
  odict_get (lower username) (reputation (load_reports env file)) = None ->
  mark_player_banned env username banned file =
    (file, inl (HTTPException 500 (str (HTTPException 404 "Player not found"))))
  /\ str (HTTPException 404 "Player not found") = "404: Player not found"
  /\ forall detail,
       (mark_player_banned env username banned file).2 <>
       inl (HTTPException 404 detail).
Proof.
  intros Hget. unfold mark_player_banned. rewrite Hget. simpl.
  split; [reflexivity|]. split; [reflexivity|]. intros detail. discriminate.
Qed.

Lemma mark_unknown_player_is_500_witness :
  mark_player_banned (sample_env 1000) "Nobody" true initial_file =
    (initial_file,
     inl (HTTPException 500 (str (HTTPException 404 "Player not found"))))
  /\ str (HTTPException 404 "Player not found") = "404: Player not found"
  /\ forall detail,
       (mark_player_banned (sample_env 1000) "Nobody" true initial_file).2 <>
       inl (HTTPException 404 detail).
Proof.
  apply (mark_unknown_player_is_500 (sample_env 1000) "Nobody" true
           initial_file).
  reflexivity.
Defined.

(** ** Searching *)

Lemma Level_eqb_eq a b : Level_eqb a b = true <-> a = b.
Proof. destruct a, b; simpl; split; congruence. Qed.

Lemma search_loop_filter min_reports min_risk_score confidence items :
  search_loop min_reports min_risk_score confidence items =
  summary <$>
    filter (matches_criteria min_reports min_risk_score confidence)
           (odict_values items).
Proof.
  induction items as [|[k rep] items IH]; [done|].
  unfold odict_values in *. cbn [search_loop fmap list_fmap snd].
  rewrite filter_cons, IH. clear IH.
  unfold matches_criteria at 1, Qlt_bool.
  destruct (decide _) as [(Hn & Hq & Hc)|Hno].
  - apply Z.ltb_ge in Hn. rewrite Hn.
    apply Qle_bool_iff in Hq. rewrite Hq. simpl.
    destruct Hc as [->| ->]; [done|].
    by rewrite (proj2 (Level_eqb_eq _ _) eq_refl).
  - destruct (Z.ltb_spec (Rep.total_reports rep) min_reports); [done|].
    destruct (Qle_bool min_risk_score (Rep.average_risk_score rep)) eqn:Eq;
      [|done]. simpl.
    apply Qle_bool_iff in Eq.
    destruct confidence as [c|].
    + destruct (Level_eqb (Rep.confidence_level rep) c) eqn:El; [|done].
      apply Level_eqb_eq in El. subst c. exfalso. apply Hno.
      split; [lia|]. split; [done|]. by right.
    + exfalso. apply Hno. split; [lia|]. split; [done|]. by left.
Qed.

Lemma insert_desc_Permutation x l : insert_desc x l ≡ₚ x :: l.
Proof.
  induction l as [|y l IH]; simpl; [done|].
  destruct (_ <=? _); [done|]. rewrite IH. apply Permutation_swap.
Qed.

Lemma sort_desc_Permutation l : sort_desc l ≡ₚ l.
Proof.
  induction l as [|x l IH]; simpl; [done|].
  rewrite insert_desc_Permutation. by rewrite IH.
Qed.

Lemma insert_desc_sorted x l :
  StronglySorted more_reports l -> StronglySorted more_reports (insert_desc x l).
Proof.
  induction 1 as [|y l Hs IH Hall]; simpl.
  - repeat constructor.
  - destruct (Z.leb_spec (PlayerSummary.total_reports y)
                         (PlayerSummary.total_reports x)) as [Hle|Hlt].
    + constructor; [by constructor|].
      constructor; [done|].
      eapply Forall_impl; [exact Hall|].
      unfold more_reports. intros z Hz. simpl in Hz. lia.
    + constructor; [done|].
      rewrite insert_desc_Permutation. constructor; [|done].
      unfold more_reports. lia.
Qed.

Lemma sort_desc_sorted l : StronglySorted more_reports (sort_desc l).
Proof.
  induction l as [|x l IH]; simpl; [constructor|].
  by apply insert_desc_sorted.
Qed.

(** C8. A search answers with the number of entries that meet the three
    criteria, and with the first [limit] of those entries listed by
    decreasing [total_reports]: the players returned, followed by the ones
    cut off, are the matching entries, each once, in decreasing order of
    [total_reports]. *)
Theorem search_matches_sorted_truncated env min_reports min_risk_score
    confidence limit file :
  0 <= limit ->
  let hits :=
    filter (matches_criteria min_reports min_risk_score confidence)
           (odict_values (reputation (load_reports env file))) in
  exists resp,
    search_suspicious_players env min_reports min_risk_score confidence limit
      file = inr resp /\
    SearchResponse.total_found resp = len hits /\
    len (SearchResponse.players resp) = Z.min limit (len hits) /\
    exists rest,
      SearchResponse.players resp ++ rest ≡ₚ summary <$> hits /\
      StronglySorted more_reports (SearchResponse.players resp ++ rest).
Proof.
  intros Hlimit hits. unfold search_suspicious_players.
  rewrite search_loop_filter. fold hits.
  eexists. split; [reflexivity|]. cbn [SearchResponse.total_found
    SearchResponse.players].
  assert (Hlen : len (sort_desc (summary <$> hits)) = len hits).
  { unfold len. by rewrite sort_desc_Permutation, length_fmap. }
  unfold slice_to. destruct (Z.ltb_spec limit 0); [lia|].
  split; [exact Hlen|]. split.
  - unfold len in *. rewrite length_take. lia.
  - exists (drop (Z.to_nat limit) (sort_desc (summary <$> hits))).
    rewrite take_drop. split; [apply sort_desc_Permutation|apply sort_desc_sorted].
Qed.

Lemma search_matches_sorted_truncated_witness :
  exists resp,
    search_suspicious_players (sample_env 1003) 1 40%Q None 1
      (run two_players_run initial_file) = inr resp /\
    SearchResponse.total_found resp = 2 /\
    PlayerSummary.username <$> SearchResponse.players resp = ["Bar"].
Proof.
  destruct (search_matches_sorted_truncated (sample_env 1003) 1 40%Q None 1
              (run two_players_run initial_file))
    as (resp & Hresp & _); [lia|].
  exists resp. split; [exact Hresp|].
  vm_compute in Hresp. injection Hresp as <-. split; reflexivity.
Defined.

(** * Further properties *)

(** ** Case folding *)

Lemma lower_char_idempotent c : lower_char (lower_char c) = lower_char c.
Proof. destruct c as [[] [] [] [] [] [] [] []]; reflexivity. Qed.

Lemma lower_idempotent s : lower (lower s) = lower s.
Proof.
  induction s as [|c s IH]; simpl; [done|].
  by rewrite lower_char_idempotent, IH.
Qed.

(** ** Entries and stored reports, continued *)

Lemma entry_reports_nonempty k file rep :
  entry_consistent k file rep -> reports_of k file <> [].
Proof.
  intros ((ts & Hts & Hhd & _) & _) Hnil. rewrite Hnil in Hts.
  destruct ts; [done|]. discriminate.
Qed.

Lemma entry_total_reports k file rep :
  entry_consistent k file rep ->
  Rep.total_reports rep = len (reports_of k file).
Proof.
  intros (_ & _ & Hsc & Htot & _). rewrite Htot, Hsc. unfold len.
  by rewrite length_fmap.
Qed.

Lemma reports_of_elem k file r :
  r ∈ reports_of k file <->
  r ∈ reports file /\ lower (PlayerReport.username r) = k.
Proof. unfold reports_of. rewrite list_elem_of_filter. tauto. Qed.

(** X1. In every file the server has reached, a key has an entry exactly
    when some stored report folds to it, and the entry's [total_reports]
    is the number of those reports and its [risk_scores] their scores in
    the order of submission. *)
Theorem entry_counts_stored_reports file k :
  reachable file ->
  (odict_get k (reputation file) = None <-> reports_of k file = []) /\
  (forall rep,
      odict_get k (reputation file) = Some rep ->
      Rep.total_reports rep = len (reports_of k file) /\
      1 <= Rep.total_reports rep /\
      Rep.risk_scores rep = PlayerReport.risk_score <$> reports_of k file).
Proof.
  intros Hreach. pose proof (reachable_consistent file Hreach k) as Hc.
  destruct (odict_get k (reputation file)) as [rep|].
  - split.
    + split; [done|]. intros Hnil. by destruct (entry_reports_nonempty _ _ _ Hc).
    + intros ? [= <-]. pose proof (entry_total_reports _ _ _ Hc) as Ht.
      pose proof (entry_reports_nonempty _ _ _ Hc) as Hne.
      split; [done|]. split.
      * rewrite Ht. unfold len. destruct (reports_of k file); [done|]. simpl. lia.
      * by destruct Hc as (_ & _ & Hsc & _).
  - split; [done|]. intros rep [=].
Qed.

Lemma entry_counts_stored_reports_witness :
  (odict_get "foo" (reputation (run clock_run initial_file)) = None <->
   reports_of "foo" (run clock_run initial_file) = []) /\
  (forall rep,
      odict_get "foo" (reputation (run clock_run initial_file)) = Some rep ->
      Rep.total_reports rep = len (reports_of "foo" (run clock_run initial_file)) /\
      1 <= Rep.total_reports rep /\
      Rep.risk_scores rep =
        PlayerReport.risk_score <$> reports_of "foo" (run clock_run initial_file)).
Proof.
  apply (entry_counts_stored_reports (run clock_run initial_file) "foo").
  apply reachable_run, reachable_init.
Defined.

(** X2. In every file the server has reached, the key of an entry is the
    case-folded display username of the entry and is its own case
    folding, so that looking the display username up finds the entry. *)
Theorem entry_key_is_folded_username file k rep :
  reachable file ->
  odict_get k (reputation file) = Some rep ->
  lower (Rep.username rep) = k /\
  lower k = k /\
  forall env,
    read_fails env = false ->
    lookup_username (get_player_reputation env (Rep.username rep) file) =
      Some (Rep.username rep).
Proof.
  intros Hreach Hget. pose proof (reachable_consistent file Hreach k) as Hc.
  rewrite Hget in Hc. destruct Hc as (_ & Hname & _).
  destruct (head (reports_of k file)) as [r|] eqn:Hhd; [|done].
  injection Hname as Hname.
  assert (Hk : lower (Rep.username rep) = k).
  { apply head_Some_elem_of, reports_of_elem in Hhd as [_ Hk]. by rewrite <- Hname. }
  split; [exact Hk|]. split.
  - rewrite <- Hk. apply lower_idempotent.
  - intros env Hr. unfold get_player_reputation, load_reports.
    rewrite Hr, Hk, Hget. reflexivity.
Qed.

Lemma entry_key_is_folded_username_witness :
  lower "Foo" = "foo" /\ lower "foo" = "foo" /\
  forall env,
    read_fails env = false ->
    lookup_username
      (get_player_reputation env "Foo" (run recased_run initial_file)) =
      Some "Foo".
Proof.
  refine (entry_key_is_folded_username (run recased_run initial_file) "foo"
            (Rep.mk "Foo" 2 [50%Q; 50%Q] {["blitz" := 2]} 1000 1001 false
               50%Q low) _ _).
  - apply reachable_run, reachable_init.
  - vm_compute. reflexivity.
Defined.

Lemma reachable_stamped file :
  reachable file ->
  Forall (fun r => is_Some (PlayerReport.timestamp r)) (reports file).
Proof.
  intros Hreach. apply Forall_forall. intros r Hin.
  pose proof (reachable_consistent file Hreach
                (lower (PlayerReport.username r))) as Hc.
  assert (Hr : r ∈ reports_of (lower (PlayerReport.username r)) file)
    by by apply reports_of_elem.
  destruct (odict_get _ (reputation file)) as [rep|].
  - destruct Hc as ((ts & Hts & _) & _).
    assert (Ht : PlayerReport.timestamp r ∈ Some <$> ts).
    { rewrite <- Hts. by apply list_elem_of_fmap_2. }
    apply list_elem_of_fmap in Ht as (t & -> & _). by eexists.
  - rewrite Hc in Hr. by apply elem_of_nil in Hr.
Qed.

(** X3. In every file the server has reached, every stored report carries
    a timestamp. *)
Theorem stored_reports_have_timestamps file r :
  reachable file ->
  r ∈ reports file ->
  is_Some (PlayerReport.timestamp r).
Proof.
  intros Hreach Hin. pose proof (reachable_stamped file Hreach) as Hall.
  rewrite Forall_forall in Hall. by apply Hall.
Qed.

Lemma stored_reports_have_timestamps_witness :
  is_Some (PlayerReport.timestamp
             (PlayerReport.with_timestamp (sample_report "Foo" 50%Q) 1000)).
Proof.
  apply (stored_reports_have_timestamps (run clock_run initial_file)).
  - apply reachable_run, reachable_init.
  - vm_compute. left.
Defined.

(** ** The number of reports and the entries *)

Lemma reports_counted_set k rep (d : odict Rep.t) :
  reports_counted (odict_set k rep d) =
  reports_counted d
  - match odict_get k d with Some old => Rep.total_reports old | None => 0 end
  + Rep.total_reports rep.
Proof.
  unfold reports_counted, odict_values.
  induction d as [|[k' rep'] d IH]; cbn [odict_set odict_get]; [simpl; lia|].
  destruct (String.eqb k' k); cbn [fmap list_fmap foldr snd] in *; lia.
Qed.

Lemma submit_data_counted env report data :
  counted data -> counted (submit_data env report data).1.
Proof.
  unfold counted, submit_data. cbn [fst reputation reports]. intros Hc.
  rewrite reports_counted_set. unfold len in *. rewrite length_app. simpl length.
  destruct (odict_get _ (reputation data)); cbn [fold_report new_rep
    Rep.total_reports]; lia.
Qed.

Lemma load_reports_counted env file : counted file -> counted (load_reports env file).
Proof. unfold load_reports. by destruct (read_fails env). Qed.

Lemma reachable_counted file : reachable file -> counted file.
Proof.
  induction 1 as [|env [report|username banned] file _ IH]; [done| |];
    cbn [handle].
  - rewrite submit_report_file. unfold save_reports.
    destruct (write_fails env);
      [destruct (write_truncates env);
         [first [ apply empty_data_consistent
                | apply empty_data_formats_consistent
                | constructor
                | done ]
         | done]|].
    by apply submit_data_counted, load_reports_counted.
  - unfold mark_player_banned.
    destruct (odict_get (lower username) (reputation (load_reports env file)))
      as [rep|] eqn:E; simpl; [|done].
    unfold save_reports. destruct (write_fails env);
      [destruct (write_truncates env);
         [first [ apply empty_data_consistent
                | apply empty_data_formats_consistent
                | constructor
                | done ]
         | done]|].
    pose proof (load_reports_counted env file IH) as Hl.
    unfold counted in *. simpl. rewrite reports_counted_set, E. simpl. lia.
Qed.

(** ** Format counts *)

Lemma format_count_snoc k f data r :
  format_count k f (mkData (reports data ++ [r]) (reputation data)) =
  format_count k f data +
  (if decide (lower (PlayerReport.username r) = k /\
              PlayerReport.game_format r = f) then 1 else 0).
Proof.
  unfold format_count, reports_of, len. cbn [reports].
  rewrite !filter_app, length_app, !filter_cons, !filter_nil.
  destruct (decide (lower (PlayerReport.username r) = k)) as [Hk|Hk].
  - rewrite filter_cons, filter_nil.
    destruct (decide (PlayerReport.game_format r = f)) as [Hf|Hf].
    + rewrite decide_True by done. simpl. lia.
    + rewrite decide_False by tauto. simpl. lia.
  - rewrite filter_nil, decide_False by tauto. simpl. lia.
Qed.

Lemma format_count_nonneg k f file : 0 <= format_count k f file.
Proof. unfold format_count, len. lia. Qed.

Lemma format_count_same_reports k f file file' :
  reports file' = reports file -> format_count k f file' = format_count k f file.
Proof. unfold format_count, reports_of. by intros ->. Qed.

Lemma submit_data_formats_consistent env report data :
  file_consistent data -> formats_consistent data ->
  formats_consistent (submit_data env report data).1.
Proof.
  intros Hfc Hc k rep f. unfold submit_data. cbn [fst].
  set (k0 := lower (PlayerReport.username report)).
  set (ts := report_time env report).
  set (r := PlayerReport.with_timestamp report ts).
  set (new := fold_report _ report ts).
  change (mkData (reports data ++ [r]) (odict_set k0 new (reputation data)))
    with (mkData (reports (mkData (reports data) (odict_set k0 new (reputation data))) ++ [r])
                 (reputation (mkData (reports data) (odict_set k0 new (reputation data))))).
  rewrite format_count_snoc.
  rewrite (format_count_same_reports k f data) by done.
  cbn [reputation].
  change (lower (PlayerReport.username r)) with k0.
  change (PlayerReport.game_format r) with (PlayerReport.game_format report).
  pose proof (format_count_nonneg k f data) as Hnn.
  destruct (decide (k0 = k)) as [<-|Hne].
  - rewrite odict_get_set_eq. intros [= <-]. subst new.
    cbn [fold_report Rep.formats].
    assert (Hold : default 0
              (Rep.formats
                 match odict_get k0 (reputation data) with
                 | Some rep => rep
                 | None => new_rep report ts
                 end !! f) = format_count k0 f data).
    { specialize (Hfc k0).
      destruct (odict_get k0 (reputation data)) as [rep|] eqn:E.
      - rewrite (Hc k0 rep f E).
        destruct (Z.eqb_spec (format_count k0 f data) 0) as [->|]; done.
      - cbn [new_rep Rep.formats]. rewrite lookup_empty. simpl.
        unfold format_count. by rewrite Hfc. }
    destruct (decide (PlayerReport.game_format report = f)) as [<-|Hf].
    + rewrite decide_True by done. rewrite lookup_insert_eq, Hold.
      destruct (Z.eqb_spec (format_count k0 (PlayerReport.game_format report) data + 1) 0);
        [lia|done].
    + rewrite decide_False by tauto. rewrite lookup_insert_ne by done.
      rewrite Z.add_0_r.
      specialize (Hfc k0).
      destruct (odict_get k0 (reputation data)) as [rep|] eqn:E.
      * by apply Hc.
      * cbn [new_rep Rep.formats]. rewrite lookup_empty.
        unfold format_count. by rewrite Hfc.
  - rewrite odict_get_set_ne by done. rewrite decide_False by tauto.
    rewrite Z.add_0_r. apply Hc.
Qed.

Lemma empty_data_formats_consistent : formats_consistent empty_data.
Proof. intros k rep f [=]. Qed.

Lemma reachable_formats_consistent file :
  reachable file -> formats_consistent file.
Proof.
  induction 1 as [|env [report|username banned] file Hreach IH]; cbn [handle].
  - apply empty_data_formats_consistent.
  - rewrite submit_report_file. unfold save_reports.
    destruct (write_fails env);
      [destruct (write_truncates env);
         [first [ apply empty_data_consistent
                | apply empty_data_formats_consistent
                | constructor
                | done ]
         | done]|].
    unfold load_reports. destruct (read_fails env).
    + apply submit_data_formats_consistent;
        [apply empty_data_consistent | apply empty_data_formats_consistent].
    + apply submit_data_formats_consistent; [by apply reachable_consistent|done].
  - unfold mark_player_banned.
    destruct (odict_get (lower username) (reputation (load_reports env file)))
      as [rep|] eqn:E; simpl; [|done].
    unfold save_reports. destruct (write_fails env);
      [destruct (write_truncates env);
         [first [ apply empty_data_consistent
                | apply empty_data_formats_consistent
                | constructor
                | done ]
         | done]|].
    assert (Hl : formats_consistent (load_reports env file)).
    { unfold load_reports. destruct (read_fails env);
        [apply empty_data_formats_consistent | done]. }
    intros k rep' f. simpl.
    destruct (decide (lower username = k)) as [<-|Hne].
    + rewrite odict_get_set_eq. intros [= <-]. apply (Hl _ _ f E).
    + rewrite odict_get_set_ne by done. apply Hl.
Qed.

(** X4. In every file the server has reached, the count an entry holds for
    a format is the number of stored reports of its key played in that
    format, and a format has no count exactly when no such report exists. *)
Theorem format_counts_exact file k rep f :
  reachable file ->
  odict_get k (reputation file) = Some rep ->
  (Rep.formats rep !! f = None <-> format_count k f file = 0) /\
  (forall n, Rep.formats rep !! f = Some n ->
             n = format_count k f file /\ 1 <= n).
Proof.
  intros Hreach Hget.
  rewrite (reachable_formats_consistent file Hreach k rep f Hget).
  pose proof (format_count_nonneg k f file).
  destruct (Z.eqb_spec (format_count k f file) 0) as [E|E].
  - split; [done|]. intros n [=].
  - split; [split; [done|lia]|]. intros n [= <-]. lia.
Qed.

Lemma format_counts_exact_witness :
  (Rep.formats
     (Rep.mk "Foo" 2 [50%Q; 50%Q] {["blitz" := 2]} 1000 1001 false 50%Q low)
     !! "blitz" = None <->
   format_count "foo" "blitz" (run clock_run initial_file) = 0) /\
  (forall n,
      Rep.formats
        (Rep.mk "Foo" 2 [50%Q; 50%Q] {["blitz" := 2]} 1000 1001 false 50%Q low)
        !! "blitz" = Some n ->
      n = format_count "foo" "blitz" (run clock_run initial_file) /\ 1 <= n).
Proof.
  apply (format_counts_exact (run clock_run initial_file) "foo").
  - apply reachable_run, reachable_init.
  - vm_compute. reflexivity.
Defined.

(** ** Order of the entries *)

Lemma odict_keys_set {V} k (v : V) (d : odict V) :
  (odict_set k v d).*1 =
  match odict_get k d with Some _ => d.*1 | None => d.*1 ++ [k] end.
Proof.
  induction d as [|[k' v'] d IH]; cbn [odict_set odict_get]; [done|].
  destruct (String.eqb k' k); cbn [fmap list_fmap fst] in *; [done|].
  rewrite IH. by destruct (odict_get k d).
Qed.

(** X6. A submission with working storage appends its report, stamped,
    to the stored reports, leaves the entries of all other keys as they
    were, keeps the place of a key that has an entry and adds a new key
    after the existing ones. *)
Theorem submit_report_frame env report file :
  storage_works env ->
  reports (submit_report env report file).1 =
    reports file ++
    [PlayerReport.with_timestamp report (report_time env report)] /\
  (forall k, k <> lower (PlayerReport.username report) ->
     odict_get k (reputation (submit_report env report file).1) =
     odict_get k (reputation file)) /\
  (reputation (submit_report env report file).1).*1 =
    match odict_get (lower (PlayerReport.username report)) (reputation file) with
    | Some _ => (reputation file).*1
    | None => (reputation file).*1 ++ [lower (PlayerReport.username report)]
    end.
Proof.
  intros Hw. rewrite submit_report_file.
  rewrite storage_works_load, storage_works_save by done.
  split; [apply submit_data_reports|]. split.
  - intros k Hk. by apply submit_data_lookup_ne.
  - unfold submit_data. cbn [fst reputation]. apply odict_keys_set.
Qed.

Lemma submit_report_frame_witness :
  reports (submit_report (sample_env 1001) (sample_report "Bar" 90%Q)
             (run [(sample_env 1000, Submit (sample_report "Foo" 50%Q))]
                  initial_file)).1 =
    [PlayerReport.with_timestamp (sample_report "Foo" 50%Q) 1000;
     PlayerReport.with_timestamp (sample_report "Bar" 90%Q) 1001] /\
  (reputation
     (submit_report (sample_env 1001) (sample_report "Bar" 90%Q)
        (run [(sample_env 1000, Submit (sample_report "Foo" 50%Q))]
             initial_file)).1).*1 = ["foo"; "bar"].
Proof.
  destruct (submit_report_frame (sample_env 1001) (sample_report "Bar" 90%Q)
              (run [(sample_env 1000, Submit (sample_report "Foo" 50%Q))]
                   initial_file)) as (Hr & _ & Hk).
  - split; reflexivity.
  - split; [exact Hr | exact Hk].
Defined.

(** X7. After a submission with working storage, looking the player up
    under any casing of the username finds the entry, with the
    [total_reports] and the confidence level the submission answered and
    the report's timestamp as [last_reported]. *)
Theorem submit_then_lookup env env' report username file :
  storage_works env ->
  read_fails env' = false ->
  lower username = lower (PlayerReport.username report) ->
  exists resp view,
    (submit_report env report file).2 = inr resp /\
    get_player_reputation env' username (submit_report env report file).1 =
      inr (Found view) /\
    PlayerView.total_reports view = SubmitResponse.total_reports resp /\
    PlayerView.confidence_level view = SubmitResponse.confidence_level resp /\
    PlayerView.last_reported view = report_time env report.
Proof.
  intros Hw Hr Hk.
  destruct (submit_report_step env report file Hw) as [Hstep _].
  rewrite submit_report_response. rewrite storage_works_load by done.
  rewrite submit_data_rep.
  unfold get_player_reputation, load_reports. rewrite Hr, Hk, Hstep.
  eexists _, _. split; [reflexivity|]. split; [reflexivity|]. done.
Qed.

Lemma submit_then_lookup_witness :
  exists resp view,
    (submit_report (sample_env 1000) (sample_report "Foo" 50%Q)
       initial_file).2 = inr resp /\
    get_player_reputation (sample_env 1001) "fOO"
      (submit_report (sample_env 1000) (sample_report "Foo" 50%Q)
         initial_file).1 = inr (Found view) /\
    PlayerView.total_reports view = SubmitResponse.total_reports resp /\
    PlayerView.confidence_level view = SubmitResponse.confidence_level resp /\
    PlayerView.last_reported view = 1000.
Proof.
  apply (submit_then_lookup (sample_env 1000) (sample_env 1001)
           (sample_report "Foo" 50%Q) "fOO" initial_file).
  - split; reflexivity.
  - reflexivity.
  - reflexivity.
Defined.

(** X8. A submission whose read of the file fails and whose write
    succeeds replaces the file, whatever it held, by one holding the new
    report only and the single entry made from it; it answers
    [total_reports = 1]. *)
Theorem submit_after_failed_read env report file :
  read_fails env = true ->
  write_fails env = false ->
  submit_report env report file =
    ((submit_data env report empty_data).1,
     inr (SubmitResponse.mk true "Report submitted successfully"
            (PlayerReport.username report) 1
            (calculate_confidence_level 1
               (sum [PlayerReport.risk_score report] / 1)))) /\
  reports (submit_report env report file).1 =
    [PlayerReport.with_timestamp report (report_time env report)] /\
  (reputation (submit_report env report file).1).*1 =
    [lower (PlayerReport.username report)].
Proof.
  intros Hr Hw. unfold submit_report, load_reports, save_reports.
  rewrite Hr, Hw. done.
Qed.

Lemma submit_after_failed_read_witness :
  reports (submit_report (mkEnv 1002 true false false) (sample_report "Bar" 90%Q)
             (run clock_run initial_file)).1 =
    [PlayerReport.with_timestamp (sample_report "Bar" 90%Q) 1002] /\
  (reputation
     (submit_report (mkEnv 1002 true false false) (sample_report "Bar" 90%Q)
        (run clock_run initial_file)).1).*1 = ["bar"].
Proof.
  exact (proj2 (submit_after_failed_read (mkEnv 1002 true false false)
                  (sample_report "Bar" 90%Q) (run clock_run initial_file)
                  eq_refl eq_refl)).
Defined.

(** X9. Marking a player, banned or not, whether the player is known and
    whether the file can be read, never changes the stored reports nor the
    keys of the entries and their order, unless its write fails after the
    file was opened; then, for a known player, the file is left
    truncated. *)
Theorem mark_player_banned_keeps_entries env username banned file :
  (write_fails env && write_truncates env = false ->
   reports (mark_player_banned env username banned file).1 = reports file /\
   (reputation (mark_player_banned env username banned file).1).*1 =
     (reputation file).*1) /\
  (write_fails env && write_truncates env = true ->
   forall rep,
     odict_get (lower username) (reputation (load_reports env file)) =
       Some rep ->
     (mark_player_banned env username banned file).1 = truncated_file).
Proof.
  unfold mark_player_banned, load_reports, save_reports. split.
  - intros Hw. destruct (read_fails env); [done|].
    destruct (odict_get (lower username) (reputation file)) as [rep|] eqn:E;
      [|done].
    cbn [except_Exception fst].
    destruct (write_fails env); [by rewrite (Hw : write_truncates env = false)|].
    cbn [reports reputation]. split; [done|]. by rewrite odict_keys_set, E.
  - intros Hw rep ->. cbn [except_Exception fst].
    apply andb_true_iff in Hw as [-> ->]. done.
Qed.

Lemma mark_player_banned_keeps_entries_witness :
  (reports (mark_player_banned (failing_write_env 1002) "Foo" true
              (run clock_run initial_file)).1 =
     reports (run clock_run initial_file) /\
   (reputation (mark_player_banned (failing_write_env 1002) "Foo" true
                  (run clock_run initial_file)).1).*1 =
     (reputation (run clock_run initial_file)).*1) /\
  (mark_player_banned (truncating_write_env 1002) "Foo" true
     (run clock_run initial_file)).1 = truncated_file.
Proof.
  split.
  - exact (proj1 (mark_player_banned_keeps_entries (failing_write_env 1002)
                    "Foo" true (run clock_run initial_file)) eq_refl).
  - refine (proj2 (mark_player_banned_keeps_entries
                     (truncating_write_env 1002) "Foo" true
                     (run clock_run initial_file)) eq_refl
              (Rep.mk "Foo" 2 [50%Q; 50%Q] {["blitz" := 2]} 1000 1001 false
                 50%Q low) _).
    vm_compute. reflexivity.
Defined.

(** X10. Banning a player and then lifting the ban, with working storage,
    leaves the entry with [is_banned = False] and the level confirmed,
    whatever the level was before the ban; the other fields are as they
    were. *)
Theorem ban_then_unban env1 env2 username1 username2 file rep :
  storage_works env1 ->
  storage_works env2 ->
  lower username2 = lower username1 ->
  odict_get (lower username1) (reputation file) = Some rep ->
  odict_get (lower username1)
    (reputation
       (mark_player_banned env2 username2 false
          (mark_player_banned env1 username1 true file).1).1) =
  Some (Rep.mk (Rep.username rep) (Rep.total_reports rep)
          (Rep.risk_scores rep) (Rep.formats rep) (Rep.first_reported rep)
          (Rep.last_reported rep) false (Rep.average_risk_score rep)
          confirmed).
Proof.
  intros Hw1 Hw2 Hk Hget.
  rewrite (mark_player_banned_step env1 username1 true file rep Hw1 Hget).
  cbn [fst].
  erewrite (mark_player_banned_step env2 username2 false); [|done|].
  2:{ rewrite Hk. cbn [reputation]. apply odict_get_set_eq. }
  cbn [fst reputation]. rewrite Hk. rewrite odict_get_set_eq. reflexivity.
Qed.

Lemma ban_then_unban_witness :
  odict_get "foo"
    (reputation
       (mark_player_banned (sample_env 1002) "FOO" false
          (mark_player_banned (sample_env 1001) "Foo" true
             (run [(sample_env 1000, Submit (sample_report "Foo" 10%Q))]
                  initial_file)).1).1) =
  Some (Rep.mk "Foo" 1 [10%Q] {["blitz" := 1]} 1000 1000 false 10%Q confirmed).
Proof.
  refine (ban_then_unban (sample_env 1001) (sample_env 1002) "Foo" "FOO"
            (run [(sample_env 1000, Submit (sample_report "Foo" 10%Q))]
                 initial_file)
            (Rep.mk "Foo" 1 [10%Q] {["blitz" := 1]} 1000 1000 false 10%Q low)
            _ _ _ _).
  - split; reflexivity.
  - split; reflexivity.
  - reflexivity.
  - vm_compute. reflexivity.
Defined.

(** ** Searching, continued *)

Lemma search_outcome env min_reports min_risk_score confidence limit file :
  search_suspicious_players env min_reports min_risk_score confidence limit
    file =
  let hits :=
    sort_desc (summary <$>
      filter (matches_criteria min_reports min_risk_score confidence)
             (odict_values (reputation (load_reports env file)))) in
  inr (SearchResponse.mk (len hits) (slice_to hits limit)).
Proof. unfold search_suspicious_players. by rewrite search_loop_filter. Qed.

Lemma elem_of_slice_to {A} (x : A) xs n : x ∈ slice_to xs n -> x ∈ xs.
Proof.
  unfold slice_to. destruct (n <? 0); intros H;
    apply elem_of_take in H as (i & Hi & _); by eapply list_elem_of_lookup_2.
Qed.

(** X11. Every player a search returns is the summary of an entry that
    meets the criteria: its [total_reports] is at least [min_reports], its
    level is the requested one when one is requested, and the average of
    the entry, before the rounding of the answer, is at least
    [min_risk_score]. *)
Theorem search_players_meet_criteria env min_reports min_risk_score confidence
    limit file p :
  p ∈ search_players
        (search_suspicious_players env min_reports min_risk_score confidence
           limit file) ->
  (exists rep,
      rep ∈ odict_values (reputation (load_reports env file)) /\
      p = summary rep /\
      matches_criteria min_reports min_risk_score confidence rep) /\
  min_reports <= PlayerSummary.total_reports p /\
  (forall l, confidence = Some l -> PlayerSummary.confidence_level p = l).
Proof.
  rewrite search_outcome. cbn [search_players SearchResponse.players].
  intros Hp. apply elem_of_slice_to in Hp.
  rewrite sort_desc_Permutation in Hp.
  apply list_elem_of_fmap in Hp as (rep & -> & Hrep).
  apply list_elem_of_filter in Hrep as [Hm Hrep].
  split; [by exists rep|].
  destruct Hm as (Hn & Hq & Hc). split; [done|].
  intros l ->. destruct Hc as [|[= ->]]; done.
Qed.

Lemma search_players_meet_criteria_witness :
  let p :=
    summary (Rep.mk "Bar" 2 [90%Q; 90%Q] {["blitz" := 2]} 1001 1002 false
               90%Q low) in
  1 <= PlayerSummary.total_reports p /\
  (forall l, Some low = Some l -> PlayerSummary.confidence_level p = l).
Proof.
  intros p.
  destruct (search_players_meet_criteria (sample_env 1003) 1 40%Q (Some low)
              1 (run two_players_run initial_file) p)
    as (_ & Hn & Hl).
  - vm_compute. left.
  - split; [exact Hn | exact Hl].
Defined.

Lemma length_filter_impl {A} (P Q : A -> Prop)
    `{!forall x, Decision (P x)} `{!forall x, Decision (Q x)} (l : list A) :
  (forall x, P x -> Q x) ->
  (length (filter P l) <= length (filter Q l))%nat.
Proof.
  intros HPQ. induction l as [|x l IH]; [done|].
  rewrite !filter_cons. destruct (decide (P x)) as [HP|HP].
  - rewrite decide_True by auto. simpl. lia.
  - destruct (decide (Q x)); simpl; lia.
Qed.

(** X12. Tightening a search never finds more: with a larger
    [min_reports], a larger [min_risk_score], and the same confidence
    filter or one where there was none, [total_found] does not grow. *)
Theorem search_total_found_antitone env min_reports min_reports'
    min_risk_score min_risk_score' confidence confidence' limit limit' file :
  min_reports <= min_reports' ->
  (min_risk_score <= min_risk_score')%Q ->
  confidence = None \/ confidence = confidence' ->
  search_total
    (search_suspicious_players env min_reports' min_risk_score' confidence'
       limit' file) <=
  search_total
    (search_suspicious_players env min_reports min_risk_score confidence
       limit file).
Proof.
  intros Hn Hq Hc. rewrite !search_outcome.
  cbn [search_total SearchResponse.total_found]. unfold len.
  rewrite !sort_desc_Permutation, !length_fmap.
  apply Nat2Z.inj_le, length_filter_impl.
  intros rep (Hn' & Hq' & Hc'). split; [lia|]. split; [lra|].
  destruct Hc as [->| ->]; [by left | done].
Qed.

Lemma search_total_found_antitone_witness :
  search_total
    (search_suspicious_players (sample_env 1003) 2 60%Q (Some low) 5
       (run two_players_run initial_file)) <=
  search_total
    (search_suspicious_players (sample_env 1003) 1 40%Q None 5
       (run two_players_run initial_file)).
Proof.
  apply search_total_found_antitone.
  - lia.
  - vm_compute. discriminate.
  - by left.
Defined.

Lemma insert_desc_stable n x l :
  filter (fun p => PlayerSummary.total_reports p = n) (insert_desc x l) =
  filter (fun p => PlayerSummary.total_reports p = n) (x :: l).
Proof.
  induction l as [|y l IH]; [done|]. cbn [insert_desc].
  destruct (Z.leb_spec (PlayerSummary.total_reports y)
                       (PlayerSummary.total_reports x)) as [Hle|Hlt]; [done|].
  rewrite (filter_cons _ y), IH, !filter_cons.
  destruct (decide (PlayerSummary.total_reports y = n)) as [Hy|Hy];
    destruct (decide (PlayerSummary.total_reports x = n)) as [Hx|Hx];
    try done. lia.
Qed.

Lemma sort_desc_stable n l :
  filter (fun p => PlayerSummary.total_reports p = n) (sort_desc l) =
  filter (fun p => PlayerSummary.total_reports p = n) l.
Proof.
  induction l as [|x l IH]; [done|]. cbn [sort_desc foldr].
  fold (sort_desc l). rewrite insert_desc_stable, !filter_cons, IH. done.
Qed.

(** X13. The sort of a search is stable: when [limit] covers all the
    entries found, the returned players that have a given [total_reports]
    appear in the order of their entries in the dictionary, which is the
    order in which the players were first reported. *)
Theorem search_ties_keep_dictionary_order env min_reports min_risk_score
    confidence limit file n :
  search_total
    (search_suspicious_players env min_reports min_risk_score confidence
       limit file) <= limit ->
  filter (fun p => PlayerSummary.total_reports p = n)
    (search_players
       (search_suspicious_players env min_reports min_risk_score confidence
          limit file)) =
  summary <$>
    filter (fun rep => Rep.total_reports rep = n)
      (filter (matches_criteria min_reports min_risk_score confidence)
         (odict_values (reputation (load_reports env file)))).
Proof.
  rewrite search_outcome.
  cbn [search_total search_players SearchResponse.total_found
       SearchResponse.players].
  intros Hlim. unfold slice_to.
  set (hits := filter _ (odict_values _)) in *.
  assert (0 <= len (sort_desc (summary <$> hits))) by (unfold len; lia).
  destruct (Z.ltb_spec limit 0); [lia|].
  rewrite take_ge by (unfold len in *; lia).
  rewrite sort_desc_stable. clear.
  induction hits as [|rep hits IH]; [done|].
  rewrite fmap_cons, !filter_cons. cbn [summary PlayerSummary.total_reports].
  destruct (decide (Rep.total_reports rep = n)); by rewrite IH.
Qed.

Lemma search_ties_keep_dictionary_order_witness :
  filter (fun p => PlayerSummary.total_reports p = 1)
    (search_players
       (search_suspicious_players (sample_env 1003) 1 40%Q None 5
          (run [(sample_env 1000, Submit (sample_report "Foo" 50%Q));
                (sample_env 1001, Submit (sample_report "Bar" 90%Q))]
               initial_file))) =
  summary <$>
    filter (fun rep => Rep.total_reports rep = 1)
      (filter (matches_criteria 1 40%Q None)
         (odict_values
            (reputation
               (load_reports (sample_env 1003)
                  (run [(sample_env 1000, Submit (sample_report "Foo" 50%Q));
                        (sample_env 1001, Submit (sample_report "Bar" 90%Q))]
                       initial_file))))).
Proof.
  apply search_ties_keep_dictionary_order. vm_compute. discriminate.
Defined.

(** ** Health *)

(** X14. For a file the server has reached and can read, the health check
    reports the number of stored reports, and reports no last update
    exactly when there is none; otherwise the last update is the timestamp
    of the report submitted last. *)
Theorem health_check_reports start_time env file :
  reachable file ->
  read_fails env = false ->
  HealthCheck.total_reports (health_check start_time env file) =
    len (reports file) /\
  (HealthCheck.last_updated (health_check start_time env file) = None <->
   reports file = []) /\
  (forall r, last (reports file) = Some r ->
     HealthCheck.last_updated (health_check start_time env file) =
     PlayerReport.timestamp r /\
     is_Some (PlayerReport.timestamp r)).
Proof.
  intros Hreach Hr. unfold health_check, load_reports. rewrite Hr.
  cbn [HealthCheck.total_reports HealthCheck.last_updated].
  split; [done|].
  pose proof (reachable_stamped file Hreach) as Hst.
  destruct (reports file) as [|r0 rs] eqn:E; [done|].
  destruct (last (r0 :: rs)) as [r|] eqn:El.
  2:{ apply last_None in El. done. }
  assert (Hs : is_Some (PlayerReport.timestamp r)).
  { rewrite Forall_forall in Hst. apply Hst.
    apply last_Some in El as [l' ->]. set_solver. }
  split.
  - split; [|done]. simpl. destruct Hs as [t Ht]. by rewrite Ht.
  - intros ? [= <-]. done.
Qed.

Lemma health_check_reports_witness :
  HealthCheck.total_reports
    (health_check 0 (sample_env 5000) (run clock_run initial_file)) =
    len (reports (run clock_run initial_file)) /\
  (HealthCheck.last_updated
     (health_check 0 (sample_env 5000) (run clock_run initial_file)) = None <->
   reports (run clock_run initial_file) = []).
Proof.
  destruct (health_check_reports 0 (sample_env 5000)
              (run clock_run initial_file)) as (H1 & H2 & _).
  - apply reachable_run, reachable_init.
  - reflexivity.
  - split; [exact H1 | exact H2].
Defined.

(** X15. After a submission with working storage, a health check that can
    read the file reports one report more than before it and the
    timestamp of the submitted report as the last update. *)
Theorem health_check_after_submit start_time env env' report file :
  storage_works env ->
  read_fails env' = false ->
  HealthCheck.total_reports
    (health_check start_time env' (submit_report env report file).1) =
    HealthCheck.total_reports (health_check start_time env' file) + 1 /\
  HealthCheck.last_updated
    (health_check start_time env' (submit_report env report file).1) =
    Some (report_time env report).
Proof.
  intros Hw Hr. unfold health_check, load_reports. rewrite Hr.
  cbn [HealthCheck.total_reports HealthCheck.last_updated].
  rewrite submit_report_file.
  rewrite storage_works_load, storage_works_save by done.
  rewrite submit_data_reports. split.
  - unfold len. rewrite length_app. simpl. lia.
  - rewrite last_snoc.
    destruct (reports file ++ _) eqn:E; [|done].
    by apply app_nil in E as [_ ?].
Qed.

Lemma health_check_after_submit_witness :
  HealthCheck.total_reports
    (health_check 0 (sample_env 5000)
       (submit_report (sample_env 1000) (sample_report "Foo" 50%Q)
          initial_file).1) =
    HealthCheck.total_reports (health_check 0 (sample_env 5000) initial_file)
    + 1 /\
  HealthCheck.last_updated
    (health_check 0 (sample_env 5000)
       (submit_report (sample_env 1000) (sample_report "Foo" 50%Q)
          initial_file).1) = Some 1000.
Proof.
  apply (health_check_after_submit 0 (sample_env 1000) (sample_env 5000)
           (sample_report "Foo" 50%Q) initial_file).
  - split; reflexivity.
  - reflexivity.
Defined.

(** ** Global statistics *)

Lemma count_recent_from day_ago week_ago reports (acc : Z * Z) :
  foldl (fun counts report =>
           match PlayerReport.timestamp report,
                 PlayerReport.timestamp_offset report with
           | None, _ | Some _, Some _ => counts
           | Some report_time, None =>
               (if day_ago <=? report_time then counts.1 + 1 else counts.1,
                if week_ago <=? report_time then counts.2 + 1 else counts.2)
           end) acc reports =
  (acc.1 + len (filter (stamped_since day_ago) reports),
   acc.2 + len (filter (stamped_since week_ago) reports)).
Proof.
  revert acc. induction reports as [|r rs IH]; intros [a b].
  - unfold len. simpl. f_equal; lia.
  - cbn [foldl]. rewrite IH. rewrite !filter_cons. clear IH.
    destruct (decide (stamped_since day_ago r)) as [Hd|Hd];
      destruct (decide (stamped_since week_ago r)) as [Hw|Hw];
      unfold stamped_since in Hd, Hw;
      destruct (PlayerReport.timestamp r) as [t|];
      destruct (PlayerReport.timestamp_offset r) as [o|]; try done;
      cbn [fst snd];
      try (destruct (Z.leb_spec day_ago t); destruct (Z.leb_spec week_ago t);
           try lia);
      unfold len; simpl length; f_equal; lia.
Qed.

Lemma count_recent_filter day_ago week_ago reports :
  count_recent day_ago week_ago reports =
  (len (filter (stamped_since day_ago) reports),
   len (filter (stamped_since week_ago) reports)).
Proof.
  unfold count_recent. rewrite (count_recent_from _ _ _ (0, 0)). done.
Qed.

(** X16. The statistics count, for each window, the loaded reports whose
    timestamp is naive and falls within it: a report without a timestamp
    and a report whose timestamp carries an offset are in neither. They
    never count more reports for the last 24 hours than for the last 7
    days, nor more for the last 7 days than there are reports. *)
Theorem statistics_windows env file :
  let stats := stats_of (get_global_statistics env file) in
  let data := load_reports env file in
  GlobalStats.reports_last_24h stats =
    len (filter (stamped_since (now env - timedelta_days 1)) (reports data)) /\
  GlobalStats.reports_last_7d stats =
    len (filter (stamped_since (now env - timedelta_days 7)) (reports data)) /\
  (forall r, is_Some (PlayerReport.timestamp_offset r) ->
             forall bound, ~ stamped_since bound r) /\
  0 <= GlobalStats.reports_last_24h stats /\
  GlobalStats.reports_last_24h stats <= GlobalStats.reports_last_7d stats /\
  GlobalStats.reports_last_7d stats <= GlobalStats.total_reports stats.
Proof.
  unfold get_global_statistics. cbn [stats_of]. rewrite count_recent_filter.
  cbn [fst snd GlobalStats.reports_last_24h GlobalStats.reports_last_7d
       GlobalStats.total_reports].
  split; [done|]. split; [done|]. split.
  { intros r [o Ho] bound. unfold stamped_since. rewrite Ho.
    destruct (PlayerReport.timestamp r); tauto. }
  split; [unfold len; lia|]. split.
  - unfold len. apply Nat2Z.inj_le, length_filter_impl.
    intros r. unfold stamped_since, timedelta_days.
    destruct (PlayerReport.timestamp r), (PlayerReport.timestamp_offset r);
      try done. lia.
  - unfold len. apply Nat2Z.inj_le, length_filter.
Qed.

Lemma filter_all {A} (P : A -> Prop) `{!forall x, Decision (P x)} (l : list A) :
  Forall P l -> filter P l = l.
Proof.
  induction 1 as [|x l Hx _ IH]; [done|].
  by rewrite filter_cons, decide_True, IH.
Qed.

(** X17. When every stored report of a file the server has reached and can
    read has a naive timestamp within the last 24 hours, both windows
    count all the reports. *)
Theorem statistics_all_recent env file :
  reachable file ->
  read_fails env = false ->
  Forall (fun r => PlayerReport.timestamp_offset r = None /\
                   forall t, PlayerReport.timestamp r = Some t ->
                             now env - timedelta_days 1 <= t)
         (reports file) ->
  let stats := stats_of (get_global_statistics env file) in
  GlobalStats.reports_last_24h stats = len (reports file) /\
  GlobalStats.reports_last_7d stats = len (reports file) /\
  GlobalStats.total_reports stats = len (reports file).
Proof.
  intros Hreach Hr Hall. unfold get_global_statistics, load_reports.
  rewrite Hr. cbn [stats_of]. rewrite count_recent_filter.
  cbn [fst snd GlobalStats.reports_last_24h GlobalStats.reports_last_7d
       GlobalStats.total_reports].
  pose proof (reachable_stamped file Hreach) as Hst.
  assert (H24 : Forall (stamped_since (now env - timedelta_days 1))
                       (reports file)).
  { rewrite Forall_forall in *. intros r Hin.
    destruct (Hst r Hin) as [t Ht]. destruct (Hall r Hin) as [Ho Hall'].
    unfold stamped_since. rewrite Ht, Ho. by apply Hall'. }
  assert (H7 : Forall (stamped_since (now env - timedelta_days 7))
                      (reports file)).
  { eapply Forall_impl; [exact H24|]. intros r. unfold stamped_since,
      timedelta_days.
    destruct (PlayerReport.timestamp r), (PlayerReport.timestamp_offset r);
      try done. lia. }
  by rewrite !filter_all.
Qed.

Lemma count_confirmed_from (reps : list Rep.t) (n : Z) :
  foldl (fun n rep =>
           if Level_eqb (Rep.confidence_level rep) confirmed
              || Rep.is_banned rep
           then n + 1 else n) n reps =
  n + len (filter counts_as_confirmed reps).
Proof.
  revert n. induction reps as [|rep reps IH]; intros n.
  - unfold len. simpl. lia.
  - cbn [foldl]. rewrite IH, filter_cons. clear IH.
    destruct (decide (counts_as_confirmed rep)) as [Hc|Hc].
    + assert (Level_eqb (Rep.confidence_level rep) confirmed
              || Rep.is_banned rep = true) as ->.
      { destruct Hc as [-> | ->]; [done|]. apply orb_true_r. }
      unfold len. simpl length. lia.
    + assert (Level_eqb (Rep.confidence_level rep) confirmed
              || Rep.is_banned rep = false) as ->; [|done].
      apply orb_false_iff. split.
      * destruct (Level_eqb _ _) eqn:E; [|done].
        apply Level_eqb_eq in E. destruct Hc. by left.
      * destruct (Rep.is_banned rep) eqn:E; [|done]. destruct Hc. by right.
Qed.

(** X18. The statistics count as confirmed cheaters the entries whose level
    is confirmed or that are banned, each once: every banned entry is
    counted whatever its level, and the count does not exceed the number
    of players. *)
Theorem statistics_confirmed_cheaters env file :
  let stats := stats_of (get_global_statistics env file) in
  let reps := odict_values (reputation (load_reports env file)) in
  GlobalStats.total_confirmed_cheaters stats =
    len (filter counts_as_confirmed reps) /\
  len (filter (fun rep => Rep.is_banned rep = true) reps) <=
    GlobalStats.total_confirmed_cheaters stats /\
  GlobalStats.total_confirmed_cheaters stats <=
    GlobalStats.total_unique_players stats.
Proof.
  unfold get_global_statistics.
  cbn [stats_of GlobalStats.total_confirmed_cheaters
       GlobalStats.total_unique_players].
  unfold count_confirmed. rewrite count_confirmed_from, Z.add_0_l.
  split; [done|]. split.
  - unfold len. apply Nat2Z.inj_le, length_filter_impl. intros rep. by right.
  - unfold len, odict_values. apply Nat2Z.inj_le.
    etrans; [apply length_filter|]. by rewrite length_fmap.
Qed.

(** ** The stable sort, for any element type *)

Lemma insert_desc_by_Permutation {A} (key : A -> Z) x l :
  insert_desc_by key x l ≡ₚ x :: l.
Proof.
  induction l as [|y l IH]; simpl; [done|].
  destruct (_ <=? _); [done|]. rewrite IH. apply Permutation_swap.
Qed.

Lemma sort_desc_by_Permutation {A} (key : A -> Z) l :
  sort_desc_by key l ≡ₚ l.
Proof.
  induction l as [|x l IH]; simpl; [done|].
  rewrite insert_desc_by_Permutation. by rewrite IH.
Qed.

Lemma insert_desc_by_sorted {A} (key : A -> Z) x l :
  StronglySorted (fun a b => key b <= key a) l ->
  StronglySorted (fun a b => key b <= key a) (insert_desc_by key x l).
Proof.
  induction 1 as [|y l Hs IH Hall]; simpl.
  - repeat constructor.
  - destruct (Z.leb_spec (key y) (key x)) as [Hle|Hlt].
    + constructor; [by constructor|].
      constructor; [done|].
      eapply Forall_impl; [exact Hall|]. intros z Hz. simpl in Hz. lia.
    + constructor; [done|].
      rewrite insert_desc_by_Permutation. constructor; [lia|done].
Qed.

Lemma sort_desc_by_sorted {A} (key : A -> Z) l :
  StronglySorted (fun a b => key b <= key a) (sort_desc_by key l).
Proof.
  induction l as [|x l IH]; simpl; [constructor|].
  by apply insert_desc_by_sorted.
Qed.

(** X19. The top players of the statistics are the ten entries with the
    most reports, or all the entries when there are fewer: followed by
    the entries left out, they are the entries, each once, by decreasing
    [total_reports]. *)
Theorem statistics_top_players env file :
  let stats := stats_of (get_global_statistics env file) in
  let all := top_player <$> odict_values (reputation (load_reports env file)) in
  len (GlobalStats.top_reported_players stats) = Z.min 10 (len all) /\
  exists rest,
    GlobalStats.top_reported_players stats ++ rest ≡ₚ all /\
    StronglySorted top_more_reports
      (GlobalStats.top_reported_players stats ++ rest).
Proof.
  unfold get_global_statistics.
  cbn [stats_of GlobalStats.top_reported_players]. unfold slice_to.
  change (10 <? 0) with false. cbv iota.
  set (all := top_player <$> _). split.
  - unfold len. rewrite length_take, sort_desc_by_Permutation. lia.
  - exists (drop (Z.to_nat 10) (sort_desc_by TopPlayer.total_reports all)).
    rewrite take_drop. split; [apply sort_desc_by_Permutation|].
    apply (sort_desc_by_sorted TopPlayer.total_reports).
Qed.

(** ** Keys of the entries *)

Lemma odict_get_None_keys {V} k (d : odict V) :
  odict_get k d = None <-> k ∉ d.*1.
Proof.
  induction d as [|[k' v] d IH]; cbn [odict_get fmap list_fmap fst].
  - split; [intros _; apply not_elem_of_nil | done].
  - rewrite not_elem_of_cons.
    destruct (String.eqb_spec k' k) as [->|Hne]; [split; [done|tauto]|].
    rewrite IH. split; [intros; split; [congruence|done] | tauto].
Qed.

Lemma odict_elem_get {V} k (v : V) (d : odict V) :
  NoDup d.*1 -> (k, v) ∈ d -> odict_get k d = Some v.
Proof.
  induction d as [|[k' v'] d IH]; cbn [odict_get fmap list_fmap fst];
    intros Hnd Hin; [by apply elem_of_nil in Hin|].
  apply NoDup_cons in Hnd as [Hk' Hnd].
  apply elem_of_cons in Hin as [[= <- <-]|Hin].
  - by rewrite String.eqb_refl.
  - destruct (String.eqb_spec k' k) as [->|]; [|auto].
    destruct Hk'. apply list_elem_of_fmap. by exists (k, v).
Qed.

Lemma odict_set_NoDup {V} k (v : V) (d : odict V) :
  NoDup d.*1 -> NoDup (odict_set k v d).*1.
Proof.
  intros Hnd. rewrite odict_keys_set.
  destruct (odict_get k d) eqn:E; [done|].
  apply NoDup_app. split; [done|]. split; [|apply NoDup_singleton].
  intros x Hx ->%list_elem_of_singleton. by apply odict_get_None_keys in E.
Qed.

Lemma reachable_keys_NoDup file : reachable file -> NoDup (reputation file).*1.
Proof.
  induction 1 as [|env [report|username banned] file _ IH]; cbn [handle].
  - constructor.
  - rewrite submit_report_file. unfold save_reports, load_reports.
    destruct (write_fails env);
      [destruct (write_truncates env);
         [first [ apply empty_data_consistent
                | apply empty_data_formats_consistent
                | constructor
                | done ]
         | done]|].
    unfold submit_data. cbn [fst reputation]. apply odict_set_NoDup.
    destruct (read_fails env); [constructor|done].
  - unfold mark_player_banned, load_reports, save_reports.
    destruct (read_fails env); [done|].
    destruct (odict_get (lower username) (reputation file)) as [rep|] eqn:E;
      [|done].
    cbn [except_Exception fst]. destruct (write_fails env);
      [destruct (write_truncates env);
         [first [ apply empty_data_consistent
                | apply empty_data_formats_consistent
                | constructor
                | done ]
         | done]|].
    cbn [reputation]. by rewrite odict_keys_set, E.
Qed.

Lemma reports_counted_ge (d : odict Rep.t) :
  Forall (fun rep => 1 <= Rep.total_reports rep) (odict_values d) ->
  len d <= reports_counted d.
Proof.
  unfold reports_counted, odict_values, len.
  induction d as [|[k rep] d IH]; cbn [fmap list_fmap snd foldr length];
    intros Hall; [lia|].
  apply Forall_cons in Hall as [H1 Hall]. specialize (IH Hall). lia.
Qed.

Lemma reachable_entries_positive file :
  reachable file ->
  Forall (fun rep => 1 <= Rep.total_reports rep)
         (odict_values (reputation file)).
Proof.
  intros Hreach. apply Forall_forall. intros rep Hin.
  apply list_elem_of_fmap in Hin as ([k rep'] & -> & Hin). simpl.
  pose proof (odict_elem_get k rep' _ (reachable_keys_NoDup file Hreach) Hin)
    as Hget.
  pose proof (reachable_consistent file Hreach k) as Hc. rewrite Hget in Hc.
  rewrite (entry_total_reports _ _ _ Hc).
  pose proof (entry_reports_nonempty _ _ _ Hc).
  unfold len. destruct (reports_of k file); [done|]. simpl. lia.
Qed.

(** X20. For a file the server has reached and can read, the number of
    reports in the statistics is the total of the [total_reports] of the
    entries, the players are counted once each, and there are no more
    players than reports. *)
Theorem statistics_totals env file :
  reachable file ->
  read_fails env = false ->
  let stats := stats_of (get_global_statistics env file) in
  GlobalStats.total_reports stats = len (reports file) /\
  GlobalStats.total_reports stats = reports_counted (reputation file) /\
  GlobalStats.total_unique_players stats = len (reputation file) /\
  NoDup (reputation file).*1 /\
  GlobalStats.total_unique_players stats <= GlobalStats.total_reports stats.
Proof.
  intros Hreach Hr. unfold get_global_statistics, load_reports. rewrite Hr.
  cbn [stats_of GlobalStats.total_reports GlobalStats.total_unique_players].
  pose proof (reachable_counted file Hreach) as Hc. unfold counted in Hc.
  split; [done|]. split; [done|]. split; [done|].
  split; [by apply reachable_keys_NoDup|].
  rewrite <- Hc. by apply reports_counted_ge, reachable_entries_positive.
Qed.

Lemma statistics_totals_witness :
  let stats :=
    stats_of (get_global_statistics (sample_env 1003)
                (run two_players_run initial_file)) in
  GlobalStats.total_reports stats = 3 /\
  GlobalStats.total_unique_players stats = 2 /\
  GlobalStats.total_unique_players stats <= GlobalStats.total_reports stats.
Proof.
  destruct (statistics_totals (sample_env 1003)
              (run two_players_run initial_file))
    as (H1 & _ & H2 & _ & H3).
  - apply reachable_run, reachable_init.
  - reflexivity.
  - split; [exact H1|]. split; [exact H2 | exact H3].
Defined.

Lemma statistics_all_recent_witness :
  let stats :=
    stats_of (get_global_statistics (sample_env 1003)
                (run two_players_run initial_file)) in
  GlobalStats.reports_last_24h stats = 3 /\
  GlobalStats.reports_last_7d stats = 3 /\
  GlobalStats.total_reports stats = 3.
Proof.
  apply (statistics_all_recent (sample_env 1003)
           (run two_players_run initial_file)).
  - apply reachable_run, reachable_init.
  - reflexivity.
  - vm_compute. repeat constructor; intros t [= <-]; discriminate.
Defined.

(** X21. A request whose read of the file fails sees an empty store: the
    lookup answers that the player has no reports, the search finds
    nothing, the statistics and the health check count nothing, and a
    player cannot be marked, the file staying as it was. *)
Theorem failed_read_sees_empty_store env file :
  read_fails env = true ->
  (forall username,
     get_player_reputation env username file =
     inr (NotFound username "No reports found for this player")) /\
  (forall min_reports min_risk_score confidence limit,
     search_suspicious_players env min_reports min_risk_score confidence
       limit file = inr (SearchResponse.mk 0 [])) /\
  get_global_statistics env file = inr (GlobalStats.mk 0 0 0 0 0 []) /\
  (forall start_time,
     HealthCheck.total_reports (health_check start_time env file) = 0 /\
     HealthCheck.last_updated (health_check start_time env file) = None) /\
  (forall username banned,
     mark_player_banned env username banned file =
     (file, inl (HTTPException 500 "404: Player not found"))).
Proof.
  intros Hr.
  unfold get_player_reputation, search_suspicious_players,
    get_global_statistics, health_check, mark_player_banned, load_reports.
  rewrite Hr. split; [done|]. split; [|done].
  intros min_reports min_risk_score confidence limit.
  cbn [reputation empty_data search_loop sort_desc foldr].
  unfold slice_to, len. cbn [length]. destruct (limit <? 0); by rewrite take_nil.
Qed.

Lemma failed_read_sees_empty_store_witness :
  get_player_reputation (mkEnv 2000 true false false) "Foo"
    (run clock_run initial_file) =
    inr (NotFound "Foo" "No reports found for this player") /\
  get_global_statistics (mkEnv 2000 true false false) (run clock_run initial_file) =
    inr (GlobalStats.mk 0 0 0 0 0 []).
Proof.
  destruct (failed_read_sees_empty_store (mkEnv 2000 true false false)
              (run clock_run initial_file) eq_refl) as (H1 & _ & H2 & _).
  split; [apply H1 | exact H2].
Defined.

(** ** The display username *)

Lemma reachable_values_lookup file rep :
  reachable file ->
  rep ∈ odict_values (reputation file) ->
  exists k,
    odict_get k (reputation file) = Some rep /\
    PlayerReport.username <$> head (reports_of k file) =
      Some (Rep.username rep).
Proof.
  intros Hreach Hin.
  apply list_elem_of_fmap in Hin as ([k rep'] & -> & Hin). cbn [snd].
  pose proof (odict_elem_get k rep' _ (reachable_keys_NoDup file Hreach) Hin)
    as Hget.
  exists k. split; [exact Hget|].
  pose proof (reachable_consistent file Hreach k) as Hc.
  rewrite Hget in Hc. by destruct Hc as (_ & Hname & _).
Qed.

(** C4 (amended). The display username of an entry is the casing of the
    first report folded into it. In every file the server has reached it
    is the username of the first stored report of the key; a submission
    for a key that has an entry leaves it as it was; and it is the name
    that [get_player_reputation], the search and the statistics answer
    with. *)
Theorem display_username_first_casing :
  (forall file k rep,
      reachable file ->
      odict_get k (reputation file) = Some rep ->
      PlayerReport.username <$> head (reports_of k file) =
        Some (Rep.username rep)) /\
  (forall file env env' report rep,
      storage_works env ->
      read_fails env' = false ->
      odict_get (lower (PlayerReport.username report)) (reputation file) =
        Some rep ->
      exists rep',
        odict_get (lower (PlayerReport.username report))
                  (reputation (submit_report env report file).1) = Some rep' /\
        Rep.username rep' = Rep.username rep /\
        lookup_username
          (get_player_reputation env' (PlayerReport.username report)
             (submit_report env report file).1) = Some (Rep.username rep)) /\
  (forall file env min_reports min_risk_score confidence limit p,
      reachable file ->
      read_fails env = false ->
      p ∈ search_players
            (search_suspicious_players env min_reports min_risk_score
               confidence limit file) ->
      exists k rep,
        odict_get k (reputation file) = Some rep /\
        PlayerSummary.username p = Rep.username rep /\
        PlayerReport.username <$> head (reports_of k file) =
          Some (PlayerSummary.username p)) /\
  (forall file env p,
      reachable file ->
      read_fails env = false ->
      p ∈ GlobalStats.top_reported_players
            (stats_of (get_global_statistics env file)) ->
      exists k rep,
        odict_get k (reputation file) = Some rep /\
        TopPlayer.username p = Rep.username rep /\
        PlayerReport.username <$> head (reports_of k file) =
          Some (TopPlayer.username p)).
Proof.
  split; [|split; [|split]].
  - intros file k rep Hreach Hget.
    pose proof (reachable_consistent file Hreach k) as Hc.
    rewrite Hget in Hc. by destruct Hc as (_ & Hname & _).
  - intros file env env' report rep Hw Hr Hget.
    destruct (submit_report_step env report file Hw) as [Hstep _].
    rewrite Hget in Hstep. simpl default in Hstep.
    eexists. split; [exact Hstep|]. split; [reflexivity|].
    unfold get_player_reputation, load_reports. rewrite Hr, Hstep.
    reflexivity.
  - intros file env min_reports min_risk_score confidence limit p Hreach Hr.
    rewrite search_outcome. cbn [search_players SearchResponse.players].
    unfold load_reports. rewrite Hr.
    intros Hp. apply elem_of_slice_to in Hp.
    rewrite sort_desc_Permutation in Hp.
    apply list_elem_of_fmap in Hp as (rep & -> & Hrep).
    apply list_elem_of_filter in Hrep as [_ Hrep].
    destruct (reachable_values_lookup file rep Hreach Hrep) as (k & Hget & Hn).
    by exists k, rep.
  - intros file env p Hreach Hr. unfold get_global_statistics, load_reports.
    rewrite Hr. cbn [stats_of GlobalStats.top_reported_players].
    intros Hp. apply elem_of_slice_to in Hp.
    rewrite sort_desc_by_Permutation in Hp.
    apply list_elem_of_fmap in Hp as (rep & -> & Hrep).
    destruct (reachable_values_lookup file rep Hreach Hrep) as (k & Hget & Hn).
    by exists k, rep.
Qed.

Lemma display_username_first_casing_witness :
  let rep := Rep.mk "Foo" 2 [50%Q; 50%Q] {["blitz" := 2]} 1000 1001 false
               50%Q low in
  (PlayerReport.username <$>
     head (reports_of "foo" (run recased_run initial_file)) = Some "Foo") /\
  (exists rep',
      odict_get "foo" (reputation (run recased_run initial_file)) = Some rep' /\
      Rep.username rep' = "Foo" /\
      lookup_username
        (get_player_reputation (sample_env 1002) "FOO"
           (run recased_run initial_file)) = Some "Foo") /\
  (exists k rep0,
      odict_get k (reputation (run recased_run initial_file)) = Some rep0 /\
      PlayerSummary.username (summary rep) = Rep.username rep0 /\
      PlayerReport.username <$>
        head (reports_of k (run recased_run initial_file)) =
        Some (PlayerSummary.username (summary rep))) /\
  (exists k rep0,
      odict_get k (reputation (run recased_run initial_file)) = Some rep0 /\
      TopPlayer.username (top_player rep) = Rep.username rep0 /\
      PlayerReport.username <$>
        head (reports_of k (run recased_run initial_file)) =
        Some (TopPlayer.username (top_player rep))).
Proof.
  intros rep.
  destruct display_username_first_casing as (H1 & H2 & H3 & H4).
  split; [|split; [|split]].
  - refine (H1 (run recased_run initial_file) "foo" rep _ _).
    + apply reachable_run, reachable_init.
    + vm_compute. reflexivity.
  - apply (H2 (run [(sample_env 1000, Submit (sample_report "Foo" 50%Q))]
                   initial_file)
              (sample_env 1001) (sample_env 1002) (sample_report "FOO" 50%Q)
              (Rep.mk "Foo" 1 [50%Q] {["blitz" := 1]} 1000 1000 false 50%Q
                 low)).
    + split; reflexivity.
    + reflexivity.
    + vm_compute. reflexivity.
  - apply (H3 (run recased_run initial_file) (sample_env 1002) 1 0%Q None 10
              (summary rep)).
    + apply reachable_run, reachable_init.
    + reflexivity.
    + vm_compute. left.
  - apply (H4 (run recased_run initial_file) (sample_env 1002)
              (top_player rep)).
    + apply reachable_run, reachable_init.
    + reflexivity.
    + vm_compute. left.
Defined.

Lemma display_username_counterexample :
  reachable (run recased_run initial_file) /\
  exists rep,
    odict_get (lower "FOO") (reputation (run recased_run initial_file)) =
      Some rep /\
    last (reports (run recased_run initial_file)) =
      Some (PlayerReport.with_timestamp (sample_report "FOO" 50%Q) 1001) /\
    Rep.username rep = "Foo" /\
    Rep.username rep <> "FOO" /\
    lookup_username
      (get_player_reputation (sample_env 1002) "FOO"
         (run recased_run initial_file)) = Some "Foo" /\
    PlayerSummary.username <$>
      search_players
        (search_suspicious_players (sample_env 1002) 1 0%Q None 10
           (run recased_run initial_file)) = ["Foo"] /\
    TopPlayer.username <$>
      GlobalStats.top_reported_players
        (stats_of (get_global_statistics (sample_env 1002)
                     (run recased_run initial_file))) = ["Foo"].
Proof.
  split; [apply reachable_run, reachable_init|].
  eexists. split; [vm_compute; reflexivity|].
  repeat split; try (vm_compute; reflexivity). vm_compute. discriminate.
Qed.
